(** * Hotel booking server: pricing engine, inventory ledger and booking lifecycle

    A shallow embedding of [hotel_booking_mcp_server.py] (with the table
    constraints of [create_hotel_db.py]) and the properties of its
    specification.

    Conventions of the embedding.
    - A Python [float] is a primitive binary64 float; the integer literal [0]
      that initialises an accumulator is the float [0], which has the same
      value in every operation the code applies to it.
    - A calendar date (the text "YYYY-MM-DD" once [datetime.strptime] or the
      SQL cast to DATE has read it) is its proleptic Gregorian ordinal, the
      number [datetime.toordinal] returns; month and weekday are computed
      from the ordinal the way the [datetime] module does.
    - A table is the list of its rows in insertion order; a nullable TEXT
      column is an [option string]; numeric columns the code reads without a
      NULL test are taken NOT NULL.
    - A tool runs on a connection of its own: its statements act on a
      working copy of the database, [conn.commit()] publishes the copy and
      [conn.rollback()] drops it.
    - What [random] and the clock return is an argument of the operation. *)

From Stdlib Require Import ZArith List String Ascii Bool Lia.
From Stdlib Require Import Permutation Sorted.
From Stdlib Require Import Floats.PrimFloat Floats.FloatOps Floats.SpecFloat.
From Stdlib Require Import DecimalString DecimalZ.
Import ListNotations.

Local Open Scope string_scope.
Local Open Scope Z_scope.

(** ** Python numbers *)

Module PyFloat.

(** [float(n)] for an integer [n]; exact when [|n| < 2^53]. *)
Definition of_int (n : Z) : float :=
  match n with
  | Z0 => PrimFloat.zero
  | Zpos p => SF2Prim (S754_finite false p 0)
  | Zneg p => SF2Prim (S754_finite true p 0)
  end.

(** Nearest integer to [num / den] ([den > 0]), ties to the even one. *)
Definition div_half_even (num den : Z) : Z :=
  let q := num / den in
  let r := num mod den in
  if 2 * r <? den then q
  else if den <? 2 * r then q + 1
  else if Z.even q then q else q + 1.

(** [round(x, 2)]: the float nearest to the decimal that is nearest to [x]
    with two fractional digits (ties of the exact binary value to even), as
    CPython computes it through a correctly rounded decimal string.  A
    non-finite [x] is returned as it is.  A float whose last binary digit
    weighs [2^-6] or more is the float nearest to its own two-digit decimal,
    and is its own result; below that, the scaled integer is less than
    [2^53] and the division by [100] is the correct rounding of the
    decimal. *)
Definition round2 (x : float) : float :=
  match Prim2SF x with
  | S754_finite s m e =>
      if -6 <=? e then x
      else
        let n := div_half_even (Zpos m * 100) (2 ^ (- e)) in
        let v := PrimFloat.div (of_int n) (of_int 100) in
        if s then PrimFloat.opp v else v
  | _ => x
  end.

End PyFloat.

(** ** The calendar of [datetime] *)

Module Calendar.

(** A date, as its proleptic Gregorian ordinal (0001-01-01 is day 1). *)
Definition date := Z.

Definition is_leap (year : Z) : bool :=
  (year mod 4 =? 0) && (negb (year mod 100 =? 0) || (year mod 400 =? 0)).

Definition days_before_year (year : Z) : Z :=
  let y := year - 1 in
  y * 365 + y / 4 - y / 100 + y / 400.

Definition DAYS_IN_MONTH (month : Z) : Z :=
  match month with
  | 1 => 31 | 2 => 28 | 3 => 31 | 4 => 30 | 5 => 31 | 6 => 30
  | 7 => 31 | 8 => 31 | 9 => 30 | 10 => 31 | 11 => 30 | 12 => 31
  | _ => -1
  end.

Definition DAYS_BEFORE_MONTH (month : Z) : Z :=
  match month with
  | 1 => 0 | 2 => 31 | 3 => 59 | 4 => 90 | 5 => 120 | 6 => 151
  | 7 => 181 | 8 => 212 | 9 => 243 | 10 => 273 | 11 => 304 | 12 => 334
  | _ => -1
  end.

Definition days_before_month (year month : Z) : Z :=
  DAYS_BEFORE_MONTH month
  + (if (2 <? month) && is_leap year then 1 else 0).

Definition ymd2ord (year month day : Z) : date :=
  days_before_year year + days_before_month year month + day.

Definition DI400Y : Z := 146097.
Definition DI100Y : Z := 36524.
Definition DI4Y : Z := 1461.

(** [_ord2ymd]: the (year, month, day) of an ordinal. *)
Definition ord2ymd (n : date) : Z * Z * Z :=
  let n := n - 1 in
  let n400 := n / DI400Y in
  let n := n mod DI400Y in
  let year := n400 * 400 + 1 in
  let n100 := n / DI100Y in
  let n := n mod DI100Y in
  let n4 := n / DI4Y in
  let n := n mod DI4Y in
  let n1 := n / 365 in
  let n := n mod 365 in
  let year := year + n100 * 100 + n4 * 4 + n1 in
  if (n1 =? 4) || (n100 =? 4) then (year - 1, 12, 31)
  else
    let leapyear := (n1 =? 3) && (negb (n4 =? 24) || (n100 =? 3)) in
    let month := Z.shiftr (n + 50) 5 in
    let preceding :=
      DAYS_BEFORE_MONTH month
      + (if (2 <? month) && leapyear then 1 else 0) in
    if n <? preceding then
      let month := month - 1 in
      let preceding :=
        preceding
        - (DAYS_IN_MONTH month
           + (if (month =? 2) && leapyear then 1 else 0)) in
      (year, month, n - preceding + 1)
    else (year, month, n - preceding + 1).

(** [d.month] *)
Definition month (d : date) : Z :=
  let '(_, m, _) := ord2ymd d in m.

(** [d.weekday()]: Monday is 0, Sunday is 6. *)
Definition weekday (d : date) : Z := (d + 6) mod 7.

End Calendar.

Export Calendar(date).

(** ** Text *)

Module Text.

Definition lower_char (c : ascii) : ascii :=
  let n := N_of_ascii c in
  if ((65 <=? n) && (n <=? 90))%N then ascii_of_N (n + 32) else c.

(** SQL [LOWER], on ASCII letters. *)
Fixpoint LOWER (s : string) : string :=
  match s with
  | EmptyString => EmptyString
  | String c s' => String (lower_char c) (LOWER s')
  end.

(** The ASCII characters [str.strip] removes. *)
Definition is_space (c : ascii) : bool :=
  let n := N_of_ascii c in
  (((9 <=? n) && (n <=? 13)) || ((28 <=? n) && (n <=? 32)))%N.

Fixpoint lstrip (s : string) : string :=
  match s with
  | EmptyString => EmptyString
  | String c s' => if is_space c then lstrip s' else s
  end.

Fixpoint rstrip (s : string) : string :=
  match s with
  | EmptyString => EmptyString
  | String c s' =>
      match rstrip s' with
      | EmptyString => if is_space c then EmptyString else String c EmptyString
      | t => String c t
      end
  end.

(** [s.strip()] *)
Definition strip (s : string) : string := rstrip (lstrip s).

(** [s.split(' ', 1)]: one part when [s] has no space, else the text before
    the first space and the text after it. *)
Fixpoint split_space_once (s : string) : string * option string :=
  match s with
  | EmptyString => (EmptyString, None)
  | String c s' =>
      if Ascii.eqb c " " then (EmptyString, Some s')
      else let '(a, b) := split_space_once s' in (String c a, b)
  end.

(** The decimal text of an integer, as an f-string prints it. *)
Definition decimal (n : Z) : string := NilZero.string_of_int (Z.to_int n).

(** Truth value of an [Optional[str]]: [None] and the empty text are false. *)
Definition truthy (o : option string) : bool :=
  match o with
  | Some s => negb (s =? "")%string
  | None => false
  end.

(** [o or ""] *)
Definition or_empty (o : option string) : string :=
  match o with
  | Some s => s
  | None => ""
  end.

End Text.

(** ** The tables

    Columns no modelled statement reads are left out.  DECIMAL columns hold
    the float the code obtains from them with [float(...)]. *)

Module User.
Record t := mk {
  user_id : Z;
  user_code : string;
  first_name : string;
  last_name : string;
  email : string;
  is_corporate : bool;
  company_name : option string
}.
End User.

Module Hotel.
Record t := mk {
  hotel_id : Z;
  hotel_name : string;
  city : string;
  corporate_discount_percent : float
}.
End Hotel.

Module Room.
Record t := mk {
  room_id : Z;
  hotel_id : Z;
  room_type : string;
  base_price : float;
  max_occupancy : Z
}.
End Room.

Module Rule.
(** A row of [pricing_rules]; [hotel_id = None] is a rule for every hotel. *)
Record t := mk {
  hotel_id : option Z;
  season : option string;
  day_of_week : option string;
  price_multiplier : float;
  priority : Z
}.
End Rule.

Module Inventory.
(** A row of [room_inventory]: the units of a room left on a date. *)
Record t := mk {
  room_id : Z;
  date : Calendar.date;
  available_count : Z;
  price : float
}.
End Inventory.

Module Booking.
Record t := mk {
  booking_reference : string;
  user_id : Z;
  hotel_id : Z;
  room_id : Z;
  check_in_date : date;
  check_out_date : date;
  nights : Z;
  guest_name : string;
  guest_count : Z;
  total_amount : float;
  per_night_rate : float;
  corporate_discount : float;
  status : string;
  purpose_of_travel : string
}.
End Booking.

Record DB := mkDB {
  users : list User.t;
  hotels : list Hotel.t;
  rooms : list Room.t;
  pricing_rules : list Rule.t;
  room_inventory : list Inventory.t;
  bookings : list Booking.t
}.

(** ** Exceptions and the cursor monad *)

Inductive exn : Type :=
| ValueError (msg : string)
| TypeError
| ZeroDivisionError
| IntegrityError (constraint : string).

(** The failures of the specification's taxonomy, as the code raises them. *)
Definition HotelOrRoomNotFound : exn := ValueError "Hotel or room not found".
Definition RoomNotFound : exn := ValueError "Room not found".
Definition GuestNotFound : exn := ValueError "Guest not found".
Definition BookingNotFound : exn := ValueError "Booking not found".
Definition InsufficientInventory : exn :=
  ValueError "Room not available for selected dates".
Definition Unauthorized : exn :=
  ValueError "Unauthorized: Booking does not belong to this guest".
Definition AlreadyCancelled : exn := ValueError "Booking is already cancelled".

(** Statements run on a cursor: they read and change the working copy of the
    database, or raise. *)
Definition cursor (A : Type) : Type := DB -> exn + (A * DB).

Definition ret {A} (a : A) : cursor A := fun db => inr (a, db).

Definition bind {A B} (c : cursor A) (k : A -> cursor B) : cursor B :=
  fun db =>
    match c db with
    | inl e => inl e
    | inr (a, db') => k a db'
    end.

Definition raise {A} (e : exn) : cursor A := fun _ => inl e.

(** A SELECT: a function of the working copy. *)
Definition query {A} (q : DB -> A) : cursor A := fun db => inr (q db, db).

(** An INSERT or UPDATE: a change of the working copy. *)
Definition execute (u : DB -> DB) : cursor unit := fun db => inr (tt, u db).

(** The result of a computation made outside the cursor. *)
Definition lift {A} (r : exn + A) : cursor A :=
  fun db =>
    match r with
    | inl e => inl e
    | inr a => inr (a, db)
    end.

Declare Scope cursor_scope.
Delimit Scope cursor_scope with cursor.
Notation "x <- c ;; k" := (bind c (fun x => k))
  (at level 100, c at next level, right associativity) : cursor_scope.
Notation "c ;; k" := (bind c (fun _ => k))
  (at level 100, right associativity) : cursor_scope.

(** [try: ...; conn.commit() / except: conn.rollback(); raise] on a fresh
    connection: the committed database after the tool has run, with what the
    tool returned or raised. *)
Definition transaction {A} (body : cursor A) (db : DB) : (exn + A) * DB :=
  match body db with
  | inl e => (inl e, db)
  | inr (a, db') => (inr a, db')
  end.

(** [ORDER BY key DESC], keeping rows of equal key in table order. *)
Fixpoint insert_desc {A} (key : A -> Z) (x : A) (l : list A) : list A :=
  match l with
  | [] => [x]
  | y :: l' => if key x <? key y then y :: insert_desc key x l' else x :: l
  end.

Definition order_by_desc {A} (key : A -> Z) (l : list A) : list A :=
  fold_right (insert_desc key) [] l.

(** A list in the order [ORDER BY key DESC] asks for. *)
Definition descending {A} (key : A -> Z) : list A -> Prop :=
  StronglySorted (fun a b => key b <= key a).

(** [ORDER BY key ASC] *)
Definition order_by_asc {A} (key : A -> Z) (l : list A) : list A :=
  order_by_desc (fun x => - key x) l.

(** SQL [MIN] over a column: NULL on no row. *)
Definition MIN (l : list Z) : option Z :=
  match l with
  | [] => None
  | x :: l' => Some (fold_left Z.min l' x)
  end.

(** ** Utility functions *)

(** [calculate_nights]: the days from check-in to check-out. *)
Definition calculate_nights (check_in check_out : date) : Z :=
  check_out - check_in.

(** [is_weekend]: Saturday is weekday 5 and Sunday 6. *)
Definition is_weekend (d : date) : bool :=
  existsb (Z.eqb (Calendar.weekday d)) [5; 6].

(** [get_season]: June to August and December, January are the peak season. *)
Definition get_season (d : date) : string :=
  let month := Calendar.month d in
  if existsb (Z.eqb month) [6; 7; 8; 12; 1] then "peak" else "regular".

Definition day_type_of (d : date) : string :=
  if is_weekend d then "weekend" else "weekday".

(** ** The pricing engine *)

Definition for_hotel (hotel_id : Z) (rule : Rule.t) : bool :=
  match Rule.hotel_id rule with
  | Some h => h =? hotel_id
  | None => true
  end.

(** [SELECT ... FROM pricing_rules WHERE hotel_id = %s OR hotel_id IS NULL
     ORDER BY priority DESC] *)
Definition fetch_pricing_rules (db : DB) (hotel_id : Z) : list Rule.t :=
  order_by_desc Rule.priority (filter (for_hotel hotel_id) (pricing_rules db)).

(** [filter_value != value] under the truth test of the filter. *)
Definition excludes (filter_value : option string) (value : string) : bool :=
  Text.truthy filter_value
  && match filter_value with
     | Some s => negb (s =? value)%string
     | None => true
     end.

(** The body of the rule loop up to the test of [applies]. *)
Definition rule_applies (season day_type : string) (rule : Rule.t) : bool :=
  let rule_season := Rule.season rule in
  let rule_day := Rule.day_of_week rule in
  let applies := true in
  let applies := if excludes rule_season season then false else applies in
  let applies := if excludes rule_day day_type then false else applies in
  applies.

(** [for rule in pricing_rules: ... if applies: multiplier = ...; break] *)
Fixpoint select_multiplier (pricing_rules : list Rule.t)
    (season day_type : string) (multiplier : float) : float :=
  match pricing_rules with
  | [] => multiplier
  | rule :: rest =>
      if rule_applies season day_type rule then Rule.price_multiplier rule
      else select_multiplier rest season day_type multiplier
  end.

(** The multiplier of one night: the rule loop from [multiplier = 1.0]. *)
Definition night_multiplier (pricing_rules : list Rule.t) (d : date) : float :=
  select_multiplier pricing_rules (get_season d) (day_type_of d) 1%float.

(** [while current_date < end_date: ...], by the number of iterations left. *)
Fixpoint price_nights (fuel : nat) (pricing_rules : list Rule.t)
    (base_price : float) (current_date end_date : date)
    (total_price : float) : float :=
  match fuel with
  | O => total_price
  | S fuel' =>
      if current_date <? end_date then
        let night_price := base_price in
        let multiplier := night_multiplier pricing_rules current_date in
        let night_price := (night_price * multiplier)%float in
        let total_price := (total_price + night_price)%float in
        price_nights fuel' pricing_rules base_price (current_date + 1)
          end_date total_price
      else total_price
  end.

Record breakdown := mkBreakdown {
  base_total : float;
  after_dynamic_pricing : float;
  corporate_discount_percent : float;
  corporate_discount_amount : float;
  final_total : float
}.

Record pricing := mkPricing {
  total_price : float;
  average_per_night : float;
  nights : Z;
  pricing_breakdown : breakdown;
  corporate_discount_applied : float
}.

(** [calculate_dynamic_price], on the committed database [db]. *)
Definition calculate_dynamic_price (db : DB) (base_price : float)
    (check_in check_out : date) (hotel_id : Z) (is_corporate : bool)
    (corporate_discount : float) : exn + pricing :=
  let pricing_rules := fetch_pricing_rules db hotel_id in
  let nights := calculate_nights check_in check_out in
  let total_price :=
    price_nights (Z.to_nat (check_out - check_in)) pricing_rules base_price
      check_in check_out 0%float in
  let '(discount_amount, total_price) :=
    if is_corporate && (0 <? corporate_discount)%float then
      let discount_amount :=
        (total_price * (corporate_discount / 100))%float in
      (discount_amount, (total_price - discount_amount)%float)
    else (0%float, total_price) in
  let breakdown :=
    {| base_total := (base_price * PyFloat.of_int nights)%float;
       after_dynamic_pricing := (total_price + discount_amount)%float;
       corporate_discount_percent :=
         if is_corporate then corporate_discount else 0%float;
       corporate_discount_amount := PyFloat.round2 discount_amount;
       final_total := PyFloat.round2 total_price |} in
  if nights =? 0 then inl ZeroDivisionError
  else
    inr {| total_price := PyFloat.round2 total_price;
           average_per_night :=
             PyFloat.round2 (total_price / PyFloat.of_int nights)%float;
           nights := nights;
           pricing_breakdown := breakdown;
           corporate_discount_applied := PyFloat.round2 discount_amount |}.

(** ** Statements on the tables *)

(** [SELECT ... FROM users WHERE LOWER(email) = LOWER(%s)], first row. *)
Definition find_user_by_email (guest_email : string) (db : DB)
  : option User.t :=
  find (fun u => (Text.LOWER (User.email u) =? Text.LOWER guest_email)%string)
       (users db).

(** The key a new row of [users] receives: above every key of the table. *)
Definition next_user_id (db : DB) : Z :=
  1 + fold_right Z.max 0 (map User.user_id (users db)).

Definition set_users (us : list User.t) (db : DB) : DB :=
  {| users := us; hotels := hotels db; rooms := rooms db;
     pricing_rules := pricing_rules db; room_inventory := room_inventory db;
     bookings := bookings db |}.

Definition set_room_inventory (inv : list Inventory.t) (db : DB) : DB :=
  {| users := users db; hotels := hotels db; rooms := rooms db;
     pricing_rules := pricing_rules db; room_inventory := inv;
     bookings := bookings db |}.

Definition set_bookings (bs : list Booking.t) (db : DB) : DB :=
  {| users := users db; hotels := hotels db; rooms := rooms db;
     pricing_rules := pricing_rules db; room_inventory := room_inventory db;
     bookings := bs |}.

(** [INSERT INTO users (...) VALUES (...) RETURNING user_id], under the
    UNIQUE constraints of [user_code] and [email]. *)
Definition insert_user (user_code first_name last_name email : string)
    (is_corporate : bool) (company_name : option string) : cursor Z :=
  fun db =>
    if existsb (fun u => (User.user_code u =? user_code)%string) (users db)
    then inl (IntegrityError "users.user_code")
    else if existsb (fun u => (User.email u =? email)%string) (users db)
    then inl (IntegrityError "users.email")
    else
      let user_id := next_user_id db in
      let row := User.mk user_id user_code first_name last_name email
                         is_corporate company_name in
      inr (user_id, set_users (users db ++ [row]) db).

(** [FROM hotels h JOIN rooms r ON h.hotel_id = r.hotel_id] *)
Definition hotels_join_rooms (db : DB) : list (Hotel.t * Room.t) :=
  flat_map
    (fun h =>
       map (pair h)
           (filter (fun r => Hotel.hotel_id h =? Room.hotel_id r) (rooms db)))
    (hotels db).

(** [... WHERE h.hotel_id = %s AND r.room_id = %s], first row. *)
Definition find_hotel_room (hotel_id room_id : Z) (db : DB)
  : option (Hotel.t * Room.t) :=
  find (fun hr => (Hotel.hotel_id (fst hr) =? hotel_id)
                  && (Room.room_id (snd hr) =? room_id))
       (hotels_join_rooms db).

(** [WHERE room_id = %s AND date >= %s AND date < %s] on [room_inventory]. *)
Definition in_stay (room_id : Z) (check_in check_out : date)
    (i : Inventory.t) : bool :=
  (Inventory.room_id i =? room_id)
  && (check_in <=? Inventory.date i)
  && (Inventory.date i <? check_out).

(** [SELECT MIN(available_count) as min_avail FROM room_inventory WHERE ...] *)
Definition min_avail (room_id : Z) (check_in check_out : date) (db : DB)
  : option Z :=
  MIN (map Inventory.available_count
           (filter (in_stay room_id check_in check_out) (room_inventory db))).

Definition add_available (delta : Z) (i : Inventory.t) : Inventory.t :=
  Inventory.mk (Inventory.room_id i) (Inventory.date i)
               (Inventory.available_count i + delta) (Inventory.price i).

(** [UPDATE room_inventory SET available_count = available_count + delta
     WHERE ...] *)
Definition update_inventory (delta : Z) (room_id : Z)
    (check_in check_out : date) (db : DB) : DB :=
  set_room_inventory
    (map (fun i => if in_stay room_id check_in check_out i
                   then add_available delta i else i)
         (room_inventory db))
    db.

(** [INSERT INTO bookings (...)], under the UNIQUE constraint of
    [booking_reference]. *)
Definition insert_booking (b : Booking.t) : cursor unit :=
  fun db =>
    if existsb (fun b' => (Booking.booking_reference b'
                           =? Booking.booking_reference b)%string)
               (bookings db)
    then inl (IntegrityError "bookings.booking_reference")
    else inr (tt, set_bookings (bookings db ++ [b]) db).

(** [SELECT ... FROM bookings WHERE booking_reference = %s], first row. *)
Definition find_booking (booking_reference : string) (db : DB)
  : option Booking.t :=
  find (fun b => (Booking.booking_reference b =? booking_reference)%string)
       (bookings db).

Definition with_status (status : string) (b : Booking.t) : Booking.t :=
  Booking.mk (Booking.booking_reference b) (Booking.user_id b)
    (Booking.hotel_id b) (Booking.room_id b) (Booking.check_in_date b)
    (Booking.check_out_date b) (Booking.nights b) (Booking.guest_name b)
    (Booking.guest_count b) (Booking.total_amount b)
    (Booking.per_night_rate b) (Booking.corporate_discount b) status
    (Booking.purpose_of_travel b).

(** [UPDATE bookings SET status = 'cancelled' WHERE booking_reference = %s] *)
Definition mark_cancelled (booking_reference : string) (db : DB) : DB :=
  set_bookings
    (map (fun b => if (Booking.booking_reference b =? booking_reference)%string
                   then with_status "cancelled" b else b)
         (bookings db))
    db.

(** ** Booking lifecycle *)

(** [generate_booking_reference]; [timestamp] is the clock reading in the
    format [%Y%m%d%H%M%S] and [random_suffix] the draw of [randint]. *)
Definition generate_booking_reference (timestamp : string)
    (random_suffix : Z) : string :=
  "HTL-" ++ timestamp ++ "-" ++ Text.decimal random_suffix.

(** What the clock and [random] give to one call of [create_booking]. *)
Record environment := mkEnv {
  user_code_draw : Z;
  timestamp : string;
  random_suffix : Z
}.

(** "Get or create user" of [create_booking]: the guest identity resolver. *)
Definition resolve_guest (guest_name guest_email : string)
    (is_corporate : bool) (company_name : option string)
    (user_code_draw : Z) : cursor Z :=
  (user <- query (find_user_by_email guest_email) ;;
   match user with
   | Some u => ret (User.user_id u)
   | None =>
       let name_parts := Text.split_space_once (Text.strip guest_name) in
       let first_name := fst name_parts in
       let last_name := Text.or_empty (snd name_parts) in
       let user_code :=
         (if is_corporate then "CORP" else "INDV")
         ++ Text.decimal user_code_draw in
       insert_user user_code first_name last_name guest_email
                   is_corporate company_name
   end)%cursor.

Record confirmation := mkConfirmation {
  conf_booking_reference : string;
  conf_status : string;
  conf_guest_name : string;
  conf_guest_email : string;
  conf_is_corporate : bool;
  conf_company : option string;
  conf_check_in : date;
  conf_check_out : date;
  conf_nights : Z;
  conf_total_amount : float;
  conf_per_night_rate : float;
  conf_corporate_discount : float;
  conf_purpose : string
}.

(** The [try] block of [create_booking]; [committed] is the database the
    pricing engine reads on its own connection. *)
Definition create_booking_body (env : environment) (committed : DB)
    (hotel_id room_id : Z) (check_in_date check_out_date : date)
    (guest_name guest_email : string) (is_corporate : bool)
    (company_name : option string) (guest_count : Z)
    (purpose_of_travel : option string) : cursor confirmation :=
  (user_id <- resolve_guest guest_name guest_email is_corporate company_name
                (user_code_draw env) ;;
   hotel_room <- query (find_hotel_room hotel_id room_id) ;;
   match hotel_room with
   | None => raise HotelOrRoomNotFound
   | Some (h, r) =>
       avail <- query (min_avail room_id check_in_date check_out_date) ;;
       match avail with
       | None => raise TypeError
       | Some min_avail =>
           if min_avail <? 1 then raise InsufficientInventory
           else
             pricing <- lift (calculate_dynamic_price committed
                                (Room.base_price r) check_in_date
                                check_out_date hotel_id is_corporate
                                (Hotel.corporate_discount_percent h)) ;;
             let booking_ref :=
               generate_booking_reference (timestamp env)
                 (random_suffix env) in
             insert_booking
               (Booking.mk booking_ref user_id hotel_id room_id
                  check_in_date check_out_date (nights pricing) guest_name
                  guest_count (total_price pricing)
                  (average_per_night pricing)
                  (corporate_discount_applied pricing) "confirmed"
                  (Text.or_empty purpose_of_travel)) ;;
             execute (update_inventory (-1) room_id check_in_date
                        check_out_date) ;;
             ret {| conf_booking_reference := booking_ref;
                    conf_status := "confirmed";
                    conf_guest_name := guest_name;
                    conf_guest_email := guest_email;
                    conf_is_corporate := is_corporate;
                    conf_company := company_name;
                    conf_check_in := check_in_date;
                    conf_check_out := check_out_date;
                    conf_nights := nights pricing;
                    conf_total_amount := total_price pricing;
                    conf_per_night_rate := average_per_night pricing;
                    conf_corporate_discount :=
                      corporate_discount_applied pricing;
                    conf_purpose := Text.or_empty purpose_of_travel |}
       end
   end)%cursor.

(** [create_booking] *)
Definition create_booking (env : environment) (hotel_id room_id : Z)
    (check_in_date check_out_date : date) (guest_name guest_email : string)
    (is_corporate : bool) (company_name : option string) (guest_count : Z)
    (purpose_of_travel : option string) (db : DB)
  : (exn + confirmation) * DB :=
  transaction
    (create_booking_body env db hotel_id room_id check_in_date check_out_date
       guest_name guest_email is_corporate company_name guest_count
       purpose_of_travel)
    db.

Record cancellation := mkCancellation {
  cancelled_reference : string;
  cancelled_status : string
}.

(** The [try] block of [cancel_booking]. *)
Definition cancel_booking_body (booking_reference guest_email : string)
  : cursor cancellation :=
  (user <- query (find_user_by_email guest_email) ;;
   match user with
   | None => raise GuestNotFound
   | Some u =>
       let user_id := User.user_id u in
       booking <- query (find_booking booking_reference) ;;
       match booking with
       | None => raise BookingNotFound
       | Some b =>
           if negb (Booking.user_id b =? user_id) then raise Unauthorized
           else if (Booking.status b =? "cancelled")%string
           then raise AlreadyCancelled
           else
             execute (mark_cancelled booking_reference) ;;
             execute (update_inventory 1 (Booking.room_id b)
                        (Booking.check_in_date b)
                        (Booking.check_out_date b)) ;;
             ret {| cancelled_reference := booking_reference;
                    cancelled_status := "cancelled" |}
       end
   end)%cursor.

(** [cancel_booking] *)
Definition cancel_booking (booking_reference guest_email : string) (db : DB)
  : (exn + cancellation) * DB :=
  transaction (cancel_booking_body booking_reference guest_email) db.

(** ** Read-only tools *)

(** A tool that never calls [conn.commit()]: its connection is closed with
    the working copy dropped. *)
Definition without_commit {A} (body : cursor A) (db : DB) : (exn + A) * DB :=
  match body db with
  | inl e => (inl e, db)
  | inr (a, _) => (inr a, db)
  end.

(** [FROM rooms r JOIN hotels h ON r.hotel_id = h.hotel_id WHERE r.room_id =
    %s], first row. *)
Definition find_room (room_id : Z) (db : DB) : option (Room.t * Hotel.t) :=
  find (fun rh => Room.room_id (fst rh) =? room_id)
       (flat_map
          (fun r =>
             map (pair r)
                 (filter (fun h => Room.hotel_id r =? Hotel.hotel_id h)
                         (hotels db)))
          (rooms db)).

(** [SELECT date, available_count, price FROM room_inventory WHERE ... ORDER
    BY date ASC] *)
Definition fetch_inventory (room_id : Z) (check_in check_out : date) (db : DB)
  : list Inventory.t :=
  order_by_asc Inventory.date
    (filter (in_stay room_id check_in check_out) (room_inventory db)).

Inductive availability : Type :=
| NoInventoryData (available : bool) (message : string)
    (room_info : Room.t * Hotel.t)
| RoomAvailability (available : bool) (room_id : Z)
    (hotel_name city room_type : string) (max_occupancy : Z)
    (available_rooms : Z) (daily_availability : list Inventory.t).

Definition check_room_availability_body (room_id : Z)
    (check_in_date check_out_date : date) : cursor availability :=
  (room <- query (find_room room_id) ;;
   match room with
   | None => raise RoomNotFound
   | Some (r, h) =>
       inventory <- query (fetch_inventory room_id check_in_date
                             check_out_date) ;;
       match inventory with
       | [] =>
           ret (NoInventoryData false
                  "No inventory data for the selected dates" (r, h))
       | row :: rest =>
           let min_availability :=
             fold_left Z.min (map Inventory.available_count rest)
                       (Inventory.available_count row) in
           ret (RoomAvailability (0 <? min_availability) room_id
                  (Hotel.hotel_name h) (Hotel.city h) (Room.room_type r)
                  (Room.max_occupancy r) min_availability inventory)
       end
   end)%cursor.

(** [check_room_availability] *)
Definition check_room_availability (room_id : Z)
    (check_in_date check_out_date : date) (db : DB)
  : (exn + availability) * DB :=
  without_commit
    (check_room_availability_body room_id check_in_date check_out_date) db.

Module Summary.
(** A row of the listing of [list_bookings_by_email]. *)
Record t := mk {
  booking_reference : string;
  status : string;
  hotel_name : string;
  city : string;
  room_type : string;
  check_in_date : date;
  check_out_date : date;
  nights : Z;
  total_amount : float;
  purpose_of_travel : string
}.
End Summary.

Definition summary_of (b : Booking.t) (h : Hotel.t) (r : Room.t)
  : Summary.t :=
  Summary.mk (Booking.booking_reference b) (Booking.status b)
    (Hotel.hotel_name h) (Hotel.city h) (Room.room_type r)
    (Booking.check_in_date b) (Booking.check_out_date b) (Booking.nights b)
    (Booking.total_amount b) (Booking.purpose_of_travel b).

(** The listing query: bookings of [user_id] joined with their hotel and
    room, under the optional status filter and [check_out_date >=
    CURRENT_DATE], [ORDER BY check_in_date DESC]. *)
Definition fetch_bookings (user_id : Z) (status : option string)
    (include_past : bool) (current_date : date) (db : DB) : list Summary.t :=
  let selected (b : Booking.t) :=
    (Booking.user_id b =? user_id)
    && (if Text.truthy status
        then (Booking.status b =? Text.or_empty status)%string else true)
    && (if negb include_past
        then current_date <=? Booking.check_out_date b else true) in
  order_by_desc Summary.check_in_date
    (flat_map
       (fun b =>
          flat_map
            (fun h =>
               map (summary_of b h)
                   (filter (fun r => Booking.room_id b =? Room.room_id r)
                           (rooms db)))
            (filter (fun h => Booking.hotel_id b =? Hotel.hotel_id h)
                    (hotels db)))
       (filter selected (bookings db))).

Inductive listing : Type :=
| NoBookingsFound (message : string) (bookings_count : Z)
    (bookings : list Summary.t)
| GuestBookings (guest_name guest_email : string) (is_corporate : bool)
    (company : option string) (bookings_count : Z)
    (bookings : list Summary.t).

Definition list_bookings_by_email_body (guest_email : string)
    (status : option string) (include_past : bool) (current_date : date)
  : cursor listing :=
  (user <- query (find_user_by_email guest_email) ;;
   match user with
   | None =>
       ret (NoBookingsFound "No bookings found for this email address" 0 [])
   | Some u =>
       let user_id := User.user_id u in
       bookings <- query (fetch_bookings user_id status include_past
                            current_date) ;;
       ret (GuestBookings
              (User.first_name u ++ " " ++ User.last_name u) guest_email
              (User.is_corporate u) (User.company_name u)
              (Z.of_nat (List.length bookings)) bookings)
   end)%cursor.

(** [list_bookings_by_email]; [current_date] is the server's CURRENT_DATE. *)
Definition list_bookings_by_email (guest_email : string)
    (status : option string) (include_past : bool) (current_date : date)
    (db : DB) : (exn + listing) * DB :=
  without_commit
    (list_bookings_by_email_body guest_email status include_past current_date)
    db.

(** ** Sequences of operations *)

Inductive operation : Type :=
| CreateBooking (env : environment) (hotel_id room_id : Z)
    (check_in_date check_out_date : date) (guest_name guest_email : string)
    (is_corporate : bool) (company_name : option string) (guest_count : Z)
    (purpose_of_travel : option string)
| CancelBooking (booking_reference guest_email : string).

(** The database after one operation, whatever it returned or raised. *)
Definition step (db : DB) (op : operation) : DB :=
  match op with
  | CreateBooking env h r ci co name email corp company count purpose =>
      snd (create_booking env h r ci co name email corp company count
             purpose db)
  | CancelBooking ref email => snd (cancel_booking ref email db)
  end.

(** The databases a sequence of operations goes through, one after each. *)
Fixpoint trace (db : DB) (ops : list operation) : list DB :=
  match ops with
  | [] => []
  | op :: ops' => step db op :: trace (step db op) ops'
  end.

(** Every inventory entry has a count of at least zero. *)
Definition inventory_nonnegative (db : DB) : Prop :=
  Forall (fun i => 0 <= Inventory.available_count i) (room_inventory db).

(** ** The specification's reading of the rule filters, and sample data *)

(** A filter matches as the specification words it: it is null or equals
    the night's value. *)
Definition spec_matches (filter_value : option string) (value : string)
  : Prop :=
  filter_value = None \/ filter_value = Some value.

Definition spec_applies (season day_type : string) (rule : Rule.t) : Prop :=
  spec_matches (Rule.season rule) season
  /\ spec_matches (Rule.day_of_week rule) day_type.

(** A filter matches as the code tests it: null and the empty text are both
    wildcards. *)
Definition matches (filter_value : option string) (value : string) : Prop :=
  filter_value = None \/ filter_value = Some "" \/ filter_value = Some value.

Definition applies_to (season day_type : string) (rule : Rule.t) : Prop :=
  matches (Rule.season rule) season
  /\ matches (Rule.day_of_week rule) day_type.

(** The hotel-specific rule {season: peak, multiplier: 1.5, priority: 10}. *)
Definition peak_rule (hotel_id : Z) : Rule.t :=
  Rule.mk (Some hotel_id) (Some "peak") None 1.5%float 10.

Module Sample.

Definition july_1 : date := Calendar.ymd2ord 2024 7 1.

Definition hotel : Hotel.t :=
  Hotel.mk 1 "Grand Plaza Hotel" "New York" 20%float.

Definition room : Room.t := Room.mk 1 1 "Standard King" 100%float 2.

Definition guest : User.t :=
  User.mk 1 "INDV1001" "Mary" "Williams" "mary.w@email.com" false None.

(** One hotel with one room, the peak rule, one guest, and the room's
    inventory for the three nights from 2024-07-01 with the given counts. *)
Definition db (c1 c2 c3 : Z) : DB :=
  {| users := [guest];
     hotels := [hotel];
     rooms := [room];
     pricing_rules := [peak_rule 1];
     room_inventory :=
       [Inventory.mk 1 july_1 c1 100%float;
        Inventory.mk 1 (july_1 + 1) c2 100%float;
        Inventory.mk 1 (july_1 + 2) c3 100%float];
     bookings := [] |}.

Definition env : environment := mkEnv 1234 "20240601120000" 4321.

(** A global rule whose season filter is the empty text. *)
Definition blank_rule : Rule.t := Rule.mk None (Some "") None 2%float 5.

Definition blank_db : DB :=
  {| users := []; hotels := [hotel]; rooms := [room];
     pricing_rules := [blank_rule]; room_inventory := [];
     bookings := [] |}.

Definition cancelled_booking : Booking.t :=
  Booking.mk "HTL-20240601120000-4321" 1 1 1 july_1 (july_1 + 3) 3
    "Mary Williams" 1 450%float 150%float 0%float "cancelled" "".

Definition cancelled_db : DB := set_bookings [cancelled_booking] (db 5 5 5).

(** What [create_booking] returns to the guest for the three nights from
    2024-07-01 in [env]. *)
Definition confirmed : confirmation :=
  {| conf_booking_reference := "HTL-20240601120000-4321";
     conf_status := "confirmed";
     conf_guest_name := "Mary Williams";
     conf_guest_email := "mary.w@email.com";
     conf_is_corporate := false;
     conf_company := None;
     conf_check_in := july_1;
     conf_check_out := july_1 + 3;
     conf_nights := 3;
     conf_total_amount := 450%float;
     conf_per_night_rate := 150%float;
     conf_corporate_discount := 0%float;
     conf_purpose := "" |}.

End Sample.

(** ** Further tools: quotes, booking details, company reports *)

Record quote := mkQuote {
  quote_hotel_name : string;
  quote_city : string;
  quote_room_type : string;
  quote_check_in : date;
  quote_check_out : date;
  quote_nights : Z;
  base_price_per_night : float;
  total_base_price : float;
  quote_after_dynamic_pricing : float;
  quote_discount_percent : float;
  quote_discount_amount : float;
  quote_final_total : float;
  quote_average_per_night : float;
  is_corporate_booking : bool
}.

Definition calculate_trip_cost_body (committed : DB) (hotel_id room_id : Z)
    (check_in_date check_out_date : date) (is_corporate : bool)
  : cursor quote :=
  (info <- query (find_hotel_room hotel_id room_id) ;;
   match info with
   | None => raise HotelOrRoomNotFound
   | Some (h, r) =>
       pricing <- lift (calculate_dynamic_price committed (Room.base_price r)
                          check_in_date check_out_date hotel_id is_corporate
                          (Hotel.corporate_discount_percent h)) ;;
       ret {| quote_hotel_name := Hotel.hotel_name h;
              quote_city := Hotel.city h;
              quote_room_type := Room.room_type r;
              quote_check_in := check_in_date;
              quote_check_out := check_out_date;
              quote_nights := nights pricing;
              base_price_per_night := Room.base_price r;
              total_base_price :=
                (Room.base_price r * PyFloat.of_int (nights pricing))%float;
              quote_after_dynamic_pricing :=
                after_dynamic_pricing (pricing_breakdown pricing);
              quote_discount_percent :=
                if is_corporate then Hotel.corporate_discount_percent h
                else 0%float;
              quote_discount_amount := corporate_discount_applied pricing;
              quote_final_total := total_price pricing;
              quote_average_per_night := average_per_night pricing;
              is_corporate_booking := is_corporate |}
   end)%cursor.

(** [calculate_trip_cost] *)
Definition calculate_trip_cost (hotel_id room_id : Z)
    (check_in_date check_out_date : date) (is_corporate : bool) (db : DB)
  : (exn + quote) * DB :=
  without_commit
    (calculate_trip_cost_body db hotel_id room_id check_in_date
       check_out_date is_corporate)
    db.

Module Detail.
(** The row of [get_booking_details]: the booking ([b.*]) with the columns
    of its guest, hotel and room that the tables of this file carry (the
    hotel's address, state and phone and the room's bed type are left
    out). *)
Record t := mk {
  booking : Booking.t;
  user_name : string;
  user_email : string;
  is_corporate : bool;
  company_name : option string;
  hotel_name : string;
  city : string;
  room_type : string
}.
End Detail.

(** [FROM bookings b JOIN users u ON b.user_id = u.user_id JOIN hotels h ON
    b.hotel_id = h.hotel_id JOIN rooms r ON b.room_id = r.room_id WHERE
    b.booking_reference = %s] *)
Definition fetch_booking_details (booking_reference : string) (db : DB)
  : list Detail.t :=
  flat_map
    (fun b =>
       flat_map
         (fun u =>
            flat_map
              (fun h =>
                 map (fun r =>
                        Detail.mk b
                          (User.first_name u ++ " " ++ User.last_name u)
                          (User.email u) (User.is_corporate u)
                          (User.company_name u) (Hotel.hotel_name h)
                          (Hotel.city h) (Room.room_type r))
                     (filter (fun r => Booking.room_id b =? Room.room_id r)
                             (rooms db)))
              (filter (fun h => Booking.hotel_id b =? Hotel.hotel_id h)
                      (hotels db)))
         (filter (fun u => Booking.user_id b =? User.user_id u) (users db)))
    (filter (fun b => (Booking.booking_reference b =? booking_reference)%string)
            (bookings db)).

Definition get_booking_details_body (booking_reference : string)
  : cursor Detail.t :=
  (rows <- query (fetch_booking_details booking_reference) ;;
   match rows with
   | [] => raise BookingNotFound
   | booking :: _ => ret booking
   end)%cursor.

(** [get_booking_details] *)
Definition get_booking_details (booking_reference : string) (db : DB)
  : (exn + Detail.t) * DB :=
  without_commit (get_booking_details_body booking_reference) db.

Module Corporate.
(** A row of the listing of [get_corporate_bookings]. *)
Record t := mk {
  booking_reference : string;
  status : string;
  traveler_name : string;
  email : string;
  hotel_name : string;
  city : string;
  room_type : string;
  check_in_date : date;
  check_out_date : date;
  nights : Z;
  total_amount : float;
  corporate_discount : float;
  purpose_of_travel : string
}.
End Corporate.

(** [... WHERE u.company_name = %s ORDER BY b.check_in_date DESC]; a NULL
    company name equals no text. *)
Definition fetch_corporate_bookings (company_name : string) (db : DB)
  : list Corporate.t :=
  order_by_desc Corporate.check_in_date
    (flat_map
       (fun b =>
          flat_map
            (fun u =>
               flat_map
                 (fun h =>
                    map (fun r =>
                           Corporate.mk (Booking.booking_reference b)
                             (Booking.status b)
                             (User.first_name u ++ " " ++ User.last_name u)
                             (User.email u) (Hotel.hotel_name h)
                             (Hotel.city h) (Room.room_type r)
                             (Booking.check_in_date b)
                             (Booking.check_out_date b) (Booking.nights b)
                             (Booking.total_amount b)
                             (Booking.corporate_discount b)
                             (Booking.purpose_of_travel b))
                        (filter (fun r => Booking.room_id b =? Room.room_id r)
                                (rooms db)))
                 (filter (fun h => Booking.hotel_id b =? Hotel.hotel_id h)
                         (hotels db)))
            (filter
               (fun u =>
                  (Booking.user_id b =? User.user_id u)
                  && match User.company_name u with
                     | Some c => (c =? company_name)%string
                     | None => false
                     end)
               (users db)))
       (bookings db)).

Record company_report := mkReport {
  report_company_name : string;
  report_bookings_count : Z;
  total_spent : float;
  total_saved : float;
  report_bookings : list Corporate.t
}.

Definition get_corporate_bookings_body (company_name : string)
  : cursor company_report :=
  (bookings <- query (fetch_corporate_bookings company_name) ;;
   let total_spent :=
     fold_left (fun acc b => (acc + Corporate.total_amount b)%float)
               bookings 0%float in
   let total_saved :=
     fold_left (fun acc b => (acc + Corporate.corporate_discount b)%float)
               bookings 0%float in
   ret {| report_company_name := company_name;
          report_bookings_count := Z.of_nat (List.length bookings);
          total_spent := PyFloat.round2 total_spent;
          total_saved := PyFloat.round2 total_saved;
          report_bookings := bookings |})%cursor.

(** [get_corporate_bookings] *)
Definition get_corporate_bookings (company_name : string) (db : DB)
  : (exn + company_report) * DB :=
  without_commit (get_corporate_bookings_body company_name) db.

(** ** Seeding the inventory ([create_hotel_db.py]) *)

(** The rows the seeding script inserts for one room: one for each of the 90
    days from [start_date], the count being the draw of [randint(2, 20)]
    for that day. *)
Definition seed_room (start_date : date) (room_id : Z) (base_price : float)
    (draw : nat -> Z) : list Inventory.t :=
  map (fun i => Inventory.mk room_id (start_date + Z.of_nat i) (draw i)
                             base_price)
      (seq 0 90).

(** [for room_id, base_price in all_rooms: for i in range(90): ...];
    [draw k i] is the count drawn for day [i] of the [k]-th room. *)
Fixpoint seed_inventory (start_date : date) (all_rooms : list (Z * float))
    (draw : nat -> nat -> Z) : list Inventory.t :=
  match all_rooms with
  | [] => []
  | (room_id, base_price) :: rest =>
      seed_room start_date room_id base_price (draw 0%nat)
      ++ seed_inventory start_date rest (fun k => draw (S k))
  end.

(** ** What the ledger accounts for *)

(** The row [create_booking] inserts and the confirmation it returns, from
    the resolved guest and the computed pricing. *)
Definition booking_row (env : environment) (user_id hotel_id room_id : Z)
    (check_in_date check_out_date : date) (guest_name : string)
    (guest_count : Z) (purpose_of_travel : option string) (p : pricing)
  : Booking.t :=
  Booking.mk
    (generate_booking_reference (timestamp env) (random_suffix env))
    user_id hotel_id room_id check_in_date check_out_date (nights p)
    guest_name guest_count (total_price p) (average_per_night p)
    (corporate_discount_applied p) "confirmed"
    (Text.or_empty purpose_of_travel).

Definition confirmation_of (env : environment)
    (check_in_date check_out_date : date) (guest_name guest_email : string)
    (is_corporate : bool) (company_name : option string)
    (purpose_of_travel : option string) (p : pricing) : confirmation :=
  {| conf_booking_reference :=
       generate_booking_reference (timestamp env) (random_suffix env);
     conf_status := "confirmed";
     conf_guest_name := guest_name;
     conf_guest_email := guest_email;
     conf_is_corporate := is_corporate;
     conf_company := company_name;
     conf_check_in := check_in_date;
     conf_check_out := check_out_date;
     conf_nights := nights p;
     conf_total_amount := total_price p;
     conf_per_night_rate := average_per_night p;
     conf_corporate_discount := corporate_discount_applied p;
     conf_purpose := Text.or_empty purpose_of_travel |}.


(** A booking that holds its units: any status but 'cancelled'. *)
Definition active (b : Booking.t) : bool :=
  negb (Booking.status b =? "cancelled")%string.

(** The booking holds a unit of the room and date of the entry. *)
Definition holds_unit (i : Inventory.t) (b : Booking.t) : bool :=
  active b
  && in_stay (Booking.room_id b) (Booking.check_in_date b)
             (Booking.check_out_date b) i.

(** For each inventory entry, the units left plus the units held by active
    bookings. *)
Definition capacity (db : DB) : list Z :=
  map (fun i => Inventory.available_count i
                + Z.of_nat (List.length (filter (holds_unit i) (bookings db))))
      (room_inventory db).

(** No two bookings share a reference. *)
Definition unique_references (db : DB) : Prop :=
  NoDup (map Booking.booking_reference (bookings db)).

(** * Properties *)

(** ** The calendar and the rounding on known values *)

Example ordinal_of_2024_07_01 : Calendar.ymd2ord 2024 7 1 = 739068.
Proof. reflexivity. Qed.

Example ymd_of_leap_day :
  Calendar.ord2ymd (Calendar.ymd2ord 2024 2 29) = (2024, 2, 29).
Proof. reflexivity. Qed.

Example ymd_of_century_end :
  Calendar.ord2ymd (Calendar.ymd2ord 2000 12 31) = (2000, 12, 31).
Proof. reflexivity. Qed.

(** 2024-07-01 was a Monday and 2024-07-06 a Saturday. *)
Example weekdays_of_july_2024 :
  Calendar.weekday Sample.july_1 = 0
  /\ is_weekend Sample.july_1 = false
  /\ is_weekend (Sample.july_1 + 5) = true
  /\ is_weekend (Sample.july_1 + 6) = true
  /\ is_weekend (Sample.july_1 + 7) = false.
Proof. repeat split; reflexivity. Qed.

Example seasons_of_2024 :
  map (fun m => get_season (Calendar.ymd2ord 2024 m 15))
      [1; 2; 3; 4; 5; 6; 7; 8; 9; 10; 11; 12]
  = ["peak"; "regular"; "regular"; "regular"; "regular"; "peak"; "peak";
     "peak"; "regular"; "regular"; "regular"; "peak"].
Proof. reflexivity. Qed.

(** [round(0.125, 2) == 0.12] and [round(0.375, 2) == 0.38]: ties go to the
    even digit; [round(2.675, 2) == 2.67], the float below the decimal. *)
Example round2_known_values :
  PyFloat.round2 0.125 = (12 / 100)%float
  /\ PyFloat.round2 0.375 = (38 / 100)%float
  /\ PyFloat.round2 (2675 / 1000) = (267 / 100)%float
  /\ PyFloat.round2 240 = 240%float
  /\ PyFloat.round2 (1 / 3) = (33 / 100)%float.
Proof. repeat split; vm_compute; reflexivity. Qed.

(** ** Lists, ordering and minima *)

Section Ordering.

Context {A : Type} (key : A -> Z).

Lemma insert_desc_perm (x : A) (l : list A) :
  Permutation (insert_desc key x l) (x :: l).
Proof.
  induction l as [|y l IH]; simpl.
  - apply Permutation_refl.
  - destruct (key x <? key y).
    + eapply perm_trans; [apply perm_skip, IH | apply perm_swap].
    + apply Permutation_refl.
Qed.

Lemma order_by_desc_perm (l : list A) : Permutation (order_by_desc key l) l.
Proof.
  induction l as [|x l IH]; simpl.
  - apply perm_nil.
  - eapply perm_trans; [apply insert_desc_perm | apply perm_skip, IH].
Qed.

Lemma order_by_desc_In (l : list A) (x : A) :
  In x (order_by_desc key l) <-> In x l.
Proof.
  split; apply Permutation_in;
    [apply order_by_desc_perm | apply Permutation_sym, order_by_desc_perm].
Qed.

Lemma insert_desc_sorted (x : A) (l : list A) :
  descending key l -> descending key (insert_desc key x l).
Proof.
  unfold descending.
  induction l as [|y l IH]; simpl; intros Hs.
  - constructor; [constructor | constructor].
  - inversion Hs as [|? ? Hl Hy]; subst.
    destruct (key x <? key y) eqn:E.
    + apply Z.ltb_lt in E.
      constructor; [apply IH, Hl |].
      apply Forall_forall. intros z Hz.
      apply (Permutation_in _ (insert_desc_perm x l)) in Hz.
      destruct Hz as [<- | Hz]; [lia |].
      rewrite Forall_forall in Hy. apply Hy, Hz.
    + apply Z.ltb_ge in E.
      constructor; [exact Hs |].
      constructor; [exact E |].
      rewrite Forall_forall in Hy |- *.
      intros z Hz. specialize (Hy z Hz). lia.
Qed.

Lemma order_by_desc_sorted (l : list A) :
  descending key (order_by_desc key l).
Proof.
  induction l as [|x l IH]; simpl.
  - constructor.
  - apply insert_desc_sorted, IH.
Qed.

End Ordering.

Lemma order_by_asc_perm {A} (key : A -> Z) (l : list A) :
  Permutation (order_by_asc key l) l.
Proof. apply order_by_desc_perm. Qed.

Lemma fold_min_le (l : list Z) (a : Z) :
  fold_left Z.min l a <= a /\ forall x, In x l -> fold_left Z.min l a <= x.
Proof.
  revert a. induction l as [|y l IH]; simpl; intros a.
  - split; [lia | intros x []].
  - destruct (IH (Z.min a y)) as [H1 H2]. split; [lia |].
    intros x [<- | Hx]; [lia | apply H2, Hx].
Qed.

Lemma fold_min_In (l : list Z) (a : Z) :
  fold_left Z.min l a = a \/ In (fold_left Z.min l a) l.
Proof.
  revert a. induction l as [|y l IH]; simpl; intros a.
  - now left.
  - destruct (IH (Z.min a y)) as [H | H].
    + rewrite H. destruct (Z.min_spec a y) as [[_ ->] | [_ ->]]; auto.
    + right. now right.
Qed.

(** [MIN] returns a least element of a list that has one. *)
Lemma MIN_spec (l : list Z) (m : Z) :
  MIN l = Some m -> In m l /\ forall x, In x l -> m <= x.
Proof.
  destruct l as [|a l]; simpl; [discriminate |].
  intros [= <-].
  destruct (fold_min_le l a) as [H1 H2].
  split.
  - destruct (fold_min_In l a) as [-> | H]; auto.
  - intros x [<- | Hx]; auto.
Qed.

Lemma MIN_None (l : list Z) : MIN l = None <-> l = [].
Proof. destruct l; simpl; split; congruence. Qed.

(** ** The pricing rule evaluator *)

Lemma excludes_false_iff (filter_value : option string) (value : string) :
  excludes filter_value value = false <-> matches filter_value value.
Proof.
  unfold excludes, matches, Text.truthy.
  destruct filter_value as [s|]; [| intuition].
  destruct (String.eqb_spec s "") as [-> | Hne]; simpl.
  - intuition.
  - destruct (String.eqb_spec s value) as [-> | Hv]; simpl.
    + intuition.
    + split; [discriminate |].
      intros [H | [H | H]]; try discriminate; congruence.
Qed.

Lemma rule_applies_iff (season day_type : string) (rule : Rule.t) :
  rule_applies season day_type rule = true <-> applies_to season day_type rule.
Proof.
  unfold rule_applies, applies_to.
  rewrite <- !excludes_false_iff.
  destruct (excludes (Rule.season rule) season),
           (excludes (Rule.day_of_week rule) day_type);
    intuition discriminate.
Qed.

(** On a rule with no empty-text filter the code's test is the
    specification's: the two readings part only on the empty text. *)
Lemma applies_to_spec_applies (season day_type : string) (rule : Rule.t) :
  Rule.season rule <> Some "" ->
  Rule.day_of_week rule <> Some "" ->
  applies_to season day_type rule <-> spec_applies season day_type rule.
Proof.
  unfold applies_to, spec_applies, matches, spec_matches.
  intros Hs Hd. tauto.
Qed.

(** The rule loop on rules in descending priority: it stops at an applying
    rule that no applying rule outranks, or keeps the multiplier it came
    with when no rule applies. *)
Lemma select_multiplier_sorted (rules : list Rule.t)
    (season day_type : string) (multiplier : float) :
  descending Rule.priority rules ->
  (exists r,
      In r rules /\ applies_to season day_type r
      /\ (forall r', In r' rules -> applies_to season day_type r' ->
                     Rule.priority r' <= Rule.priority r)
      /\ select_multiplier rules season day_type multiplier
         = Rule.price_multiplier r)
  \/ ((forall r, In r rules -> ~ applies_to season day_type r)
      /\ select_multiplier rules season day_type multiplier = multiplier).
Proof.
  induction rules as [|r rest IH]; intros Hs.
  - right. split; [intros r [] | reflexivity].
  - inversion Hs as [|? ? Hrest Hr]; subst.
    rewrite Forall_forall in Hr. simpl.
    destruct (rule_applies season day_type r) eqn:E.
    + left. exists r. apply rule_applies_iff in E.
      split; [now left |]. split; [exact E |]. split; [| reflexivity].
      intros r' [<- | Hin] _; [lia | apply Hr, Hin].
    + assert (Hno : ~ applies_to season day_type r).
      { intros H. apply rule_applies_iff in H. congruence. }
      destruct (IH Hrest) as [(r0 & Hin & Happ & Hmax & Heq) | [Hnone Heq]].
      * left. exists r0.
        split; [now right |]. split; [exact Happ |]. split; [| exact Heq].
        intros r' [<- | Hin'] Happ'; [contradiction | now apply Hmax].
      * right. split; [| exact Heq].
        intros r' [<- | Hin']; [exact Hno | now apply Hnone].
Qed.

Lemma fetch_pricing_rules_In (db : DB) (hotel_id : Z) (r : Rule.t) :
  In r (fetch_pricing_rules db hotel_id)
  <-> In r (filter (for_hotel hotel_id) (pricing_rules db)).
Proof. apply order_by_desc_In. Qed.

(** C6, as stated, fails: a rule whose season filter is the empty text
    applies to no night in the specification's reading (its filter is
    neither null nor the night's season), yet the code takes the empty text
    for a wildcard and selects the rule's multiplier 2.0 instead of 1.0. *)
Lemma empty_season_filter_counterexample :
  let rules := fetch_pricing_rules Sample.blank_db 1 in
  let d := Sample.july_1 in
  (forall r, In r rules ->
             ~ spec_applies (get_season d) (day_type_of d) r)
  /\ night_multiplier rules d = 2%float
  /\ night_multiplier rules d <> 1%float.
Proof.
  cbv zeta. split; [| split].
  - intros r Hr. vm_compute in Hr. destruct Hr as [<- | []].
    intros [[H | H] _]; vm_compute in H; discriminate.
  - vm_compute. reflexivity.
  - intros H.
    apply (f_equal (fun x => PrimFloat.eqb x 1%float)) in H.
    vm_compute in H. discriminate.
Qed.

(** C6 (amended): for every rule table, hotel and night, the effective
    multiplier is the multiplier of a rule of the hotel (or a global rule)
    whose season filter is null, empty or the night's season and whose
    day-type filter is null, empty or the night's day-type, and which no
    such rule outranks in priority; when no rule applies the multiplier is
    exactly 1.0. *)
Theorem effective_multiplier (db : DB) (hotel_id : Z) (d : date) :
  let candidates := filter (for_hotel hotel_id) (pricing_rules db) in
  let multiplier := night_multiplier (fetch_pricing_rules db hotel_id) d in
  (exists r,
      In r candidates
      /\ applies_to (get_season d) (day_type_of d) r
      /\ (forall r', In r' candidates ->
                     applies_to (get_season d) (day_type_of d) r' ->
                     Rule.priority r' <= Rule.priority r)
      /\ multiplier = Rule.price_multiplier r)
  \/ ((forall r, In r candidates ->
                 ~ applies_to (get_season d) (day_type_of d) r)
      /\ multiplier = 1%float).
Proof.
  cbv zeta. unfold night_multiplier.
  destruct (select_multiplier_sorted (fetch_pricing_rules db hotel_id)
              (get_season d) (day_type_of d) 1%float)
    as [(r & Hin & Happ & Hmax & Heq) | [Hnone Heq]].
  - apply order_by_desc_sorted.
  - left. exists r.
    split; [now apply fetch_pricing_rules_In |].
    split; [exact Happ |]. split; [| exact Heq].
    intros r' Hin'. apply Hmax. now apply fetch_pricing_rules_In.
  - right. split; [| exact Heq].
    intros r Hin. apply Hnone. now apply fetch_pricing_rules_In.
Qed.

(** ** The trip pricer *)

Lemma price_nights_done (fuel : nat) (rules : list Rule.t) (base : float)
    (current_date end_date : date) (total : float) :
  end_date <= current_date ->
  price_nights fuel rules base current_date end_date total = total.
Proof.
  intros H. destruct fuel; simpl; [reflexivity |].
  destruct (Z.ltb_spec current_date end_date); [lia | reflexivity].
Qed.

Lemma price_nights_step (fuel : nat) (rules : list Rule.t) (base : float)
    (current_date end_date : date) (total : float) :
  current_date < end_date ->
  price_nights (S fuel) rules base current_date end_date total
  = price_nights fuel rules base (current_date + 1) end_date
      (total + base * night_multiplier rules current_date)%float.
Proof.
  intros H. simpl.
  destruct (Z.ltb_spec current_date end_date); [reflexivity | lia].
Qed.

(** The loop leaves through its test: the iterations counted by
    [check_out - check_in] are enough, and more change nothing. *)
Lemma price_nights_enough (fuel : nat) (rules : list Rule.t) (base : float)
    (current_date end_date : date) (total : float) :
  (Z.to_nat (end_date - current_date) <= fuel)%nat ->
  price_nights fuel rules base current_date end_date total
  = price_nights (Z.to_nat (end_date - current_date)) rules base
      current_date end_date total.
Proof.
  revert current_date total.
  induction fuel as [|fuel IH]; intros current_date total Hf.
  - replace (Z.to_nat (end_date - current_date)) with 0%nat by lia.
    reflexivity.
  - destruct (Z_lt_le_dec current_date end_date) as [Hlt | Hge].
    + replace (Z.to_nat (end_date - current_date))
        with (S (Z.to_nat (end_date - (current_date + 1)))) by lia.
      rewrite !price_nights_step by exact Hlt.
      apply IH. lia.
    + now rewrite !price_nights_done.
Qed.

(** C1, as stated, fails: with check-out two days before check-in the
    pricer raises nothing and returns a result that counts -2 nights. *)
Lemma reversed_dates_counterexample :
  let check_in := Calendar.ymd2ord 2024 7 3 in
  let check_out := Calendar.ymd2ord 2024 7 1 in
  check_out <= check_in
  /\ exists p,
       calculate_dynamic_price (Sample.db 5 5 5) 100%float check_in
         check_out 1 false 0%float = inr p
       /\ nights p = -2.
Proof.
  cbv zeta. split; [vm_compute; discriminate |].
  eexists. split; vm_compute; reflexivity.
Qed.

(** C1 (amended): the pricer has no test of the date range.  When check-out
    equals check-in it fails, with the division by zero of the average per
    night; when check-out is before check-in it returns a result whose
    night count is the negative difference of the dates (and whose total is
    0 when no corporate discount is asked for). *)
Theorem empty_date_range (db : DB) (base_price : float)
    (check_in check_out : date) (hotel_id : Z) (is_corporate : bool)
    (corporate_discount : float) :
  check_out <= check_in ->
  (check_out = check_in
   /\ calculate_dynamic_price db base_price check_in check_out hotel_id
        is_corporate corporate_discount = inl ZeroDivisionError)
  \/ (check_out < check_in
      /\ exists p,
           calculate_dynamic_price db base_price check_in check_out hotel_id
             is_corporate corporate_discount = inr p
           /\ nights p = check_out - check_in
           /\ nights p < 0
           /\ (is_corporate = false -> total_price p = 0%float)).
Proof.
  intros Hle. unfold calculate_dynamic_price, calculate_nights.
  rewrite price_nights_done by exact Hle.
  destruct (Z.eqb_spec (check_out - check_in) 0) as [E | E].
  - left. split; [lia |].
    destruct (is_corporate && (0 <? corporate_discount)%float); reflexivity.
  - right. split; [lia |].
    destruct is_corporate; simpl.
    + destruct (0 <? corporate_discount)%float; simpl;
        eexists; (split; [reflexivity |]); simpl;
        (split; [reflexivity |]); (split; [lia | discriminate]).
    + eexists. split; [reflexivity |]. simpl.
      split; [reflexivity |]. split; [lia |]. intros _.
      vm_compute. reflexivity.
Qed.

Lemma empty_date_range_witness :
  Sample.july_1 <= Sample.july_1
  /\ calculate_dynamic_price (Sample.db 5 5 5) 100%float Sample.july_1
       Sample.july_1 1 true 20%float = inl ZeroDivisionError.
Proof.
  split; [vm_compute; discriminate |].
  destruct (empty_date_range (Sample.db 5 5 5) 100%float Sample.july_1
              Sample.july_1 1 true 20%float) as [[_ H] | [H _]].
  - vm_compute; discriminate.
  - exact H.
  - exfalso. vm_compute in H. discriminate.
Defined.

Lemma for_hotel_peak_rule (hotel_id : Z) :
  for_hotel hotel_id (peak_rule hotel_id) = true.
Proof. unfold for_hotel, peak_rule; simpl. apply Z.eqb_refl. Qed.

(** A rule of the hotel that outranks every other candidate is fetched
    first. *)
Lemma fetch_pricing_rules_head (db : DB) (hotel_id : Z) (rule : Rule.t) :
  In rule (pricing_rules db) ->
  for_hotel hotel_id rule = true ->
  (forall r, In r (pricing_rules db) -> for_hotel hotel_id r = true ->
             Rule.priority rule <= Rule.priority r -> r = rule) ->
  exists rest, fetch_pricing_rules db hotel_id = rule :: rest.
Proof.
  intros Hin Hfor Htop.
  assert (Hmem : In rule (fetch_pricing_rules db hotel_id)).
  { apply fetch_pricing_rules_In, filter_In. now split. }
  pose proof (order_by_desc_sorted Rule.priority
                (filter (for_hotel hotel_id) (pricing_rules db))) as Hs.
  fold (fetch_pricing_rules db hotel_id) in Hs.
  destruct (fetch_pricing_rules db hotel_id) as [|x rest] eqn:E;
    [destruct Hmem |].
  exists rest. f_equal.
  assert (Hx : In x (filter (for_hotel hotel_id) (pricing_rules db))).
  { apply fetch_pricing_rules_In. rewrite E. now left. }
  apply filter_In in Hx. destruct Hx as [Hx1 Hx2].
  destruct Hmem as [-> | Hrest]; [reflexivity |].
  apply Htop; auto.
  inversion Hs as [|? ? _ Hall]; subst.
  rewrite Forall_forall in Hall. apply Hall, Hrest.
Qed.

Lemma night_multiplier_peak_rule (hotel_id : Z) (rest : list Rule.t)
    (d : date) :
  get_season d = "peak" ->
  night_multiplier (peak_rule hotel_id :: rest) d = 1.5%float.
Proof.
  intros Hs. unfold night_multiplier. rewrite Hs. reflexivity.
Qed.

(** C7: two nights at base price 100.00, the hotel-specific rule {season:
    peak, multiplier: 1.5, priority: 10} the top candidate and applying to
    both nights (both are in the peak season), corporate flag true with a
    20 percent discount: the pricer returns subtotal 300.00, discount 60.00
    and final total 240.00. *)
Theorem peak_corporate_trip (db : DB) (hotel_id : Z) (check_in : date) :
  In (peak_rule hotel_id) (pricing_rules db) ->
  (forall r, In r (pricing_rules db) -> for_hotel hotel_id r = true ->
             10 <= Rule.priority r -> r = peak_rule hotel_id) ->
  get_season check_in = "peak" ->
  get_season (check_in + 1) = "peak" ->
  calculate_dynamic_price db 100%float check_in (check_in + 2) hotel_id true
    20%float
  = inr {| total_price := 240%float;
           average_per_night := 120%float;
           nights := 2;
           pricing_breakdown :=
             {| base_total := 200%float;
                after_dynamic_pricing := 300%float;
                corporate_discount_percent := 20%float;
                corporate_discount_amount := 60%float;
                final_total := 240%float |};
           corporate_discount_applied := 60%float |}.
Proof.
  intros Hin Htop Hs0 Hs1.
  destruct (fetch_pricing_rules_head db hotel_id (peak_rule hotel_id) Hin
              (for_hotel_peak_rule hotel_id) Htop) as [rest Hfetch].
  unfold calculate_dynamic_price, calculate_nights.
  rewrite Hfetch.
  replace (check_in + 2 - check_in) with 2 by lia.
  change (Z.to_nat 2) with 2%nat.
  rewrite price_nights_step by lia.
  rewrite price_nights_step by lia.
  rewrite price_nights_done by lia.
  rewrite !night_multiplier_peak_rule by assumption.
  vm_compute. reflexivity.
Qed.

Lemma peak_corporate_trip_witness :
  get_season Sample.july_1 = "peak"
  /\ get_season (Sample.july_1 + 1) = "peak"
  /\ exists p,
       calculate_dynamic_price (Sample.db 5 5 5) 100%float Sample.july_1
         (Sample.july_1 + 2) 1 true 20%float = inr p
       /\ after_dynamic_pricing (pricing_breakdown p) = 300%float
       /\ corporate_discount_applied p = 60%float
       /\ total_price p = 240%float.
Proof.
  split; [vm_compute; reflexivity |].
  split; [vm_compute; reflexivity |].
  eexists. split.
  - apply (peak_corporate_trip (Sample.db 5 5 5) 1 Sample.july_1).
    + simpl. now left.
    + intros r [<- | []] _ _. reflexivity.
    + vm_compute. reflexivity.
    + vm_compute. reflexivity.
  - repeat split.
Defined.

(** ** The guest identity resolver *)

Lemma find_last {A} (f : A -> bool) (l : list A) (x : A) :
  find f l = None -> f x = true -> find f (l ++ [x]) = Some x.
Proof.
  induction l as [|y l IH]; simpl; intros Hn Hx.
  - now rewrite Hx.
  - destruct (f y); [discriminate | now apply IH].
Qed.

Lemma find_user_by_email_lower (email email' : string) (db : DB) :
  Text.LOWER email' = Text.LOWER email ->
  find_user_by_email email' db = find_user_by_email email db.
Proof. intros H. unfold find_user_by_email. now rewrite H. Qed.

(** What a call of the resolver that returns has done: it found the guest
    and changed nothing, or found none and appended one row with the
    returned key and the given email. *)
Lemma resolve_guest_inr (guest_name guest_email : string)
    (is_corporate : bool) (company_name : option string) (draw : Z)
    (db db1 : DB) (user_id : Z) :
  resolve_guest guest_name guest_email is_corporate company_name draw db
  = inr (user_id, db1) ->
  (exists u, find_user_by_email guest_email db = Some u
             /\ user_id = User.user_id u /\ db1 = db)
  \/ (find_user_by_email guest_email db = None
      /\ exists row, User.email row = guest_email
                     /\ User.user_id row = user_id
                     /\ db1 = set_users (users db ++ [row]) db).
Proof.
  unfold resolve_guest, bind, query, ret.
  destruct (find_user_by_email guest_email db) as [u|] eqn:E.
  - intros [= <- <-]. left. now exists u.
  - unfold insert_user.
    destruct (existsb _ (users db)); [discriminate |].
    destruct (existsb _ (users db)); [discriminate |].
    intros [= <- <-]. right. split; [reflexivity |].
    eexists. refine (conj _ (conj _ eq_refl)); reflexivity.
Qed.

(** The resolver touches no table but [users]. *)
Lemma resolve_guest_frame (guest_name guest_email : string)
    (is_corporate : bool) (company_name : option string) (draw : Z)
    (db db1 : DB) (user_id : Z) :
  resolve_guest guest_name guest_email is_corporate company_name draw db
  = inr (user_id, db1) ->
  hotels db1 = hotels db /\ rooms db1 = rooms db
  /\ pricing_rules db1 = pricing_rules db
  /\ room_inventory db1 = room_inventory db
  /\ bookings db1 = bookings db.
Proof.
  intros H. apply resolve_guest_inr in H.
  destruct H as [(u & _ & _ & ->) | (_ & row & _ & _ & ->)];
    repeat split.
Qed.

(** C8: a second call of the guest resolver with the same email up to
    letter case returns the guest id of the first call and leaves the
    database, and so the stored guest record, as the first call left it,
    whatever display name, corporate flag or company name it supplies. *)
Theorem resolve_guest_idempotent
    (guest_name guest_email : string) (is_corporate : bool)
    (company_name : option string) (draw : Z)
    (guest_name' guest_email' : string) (is_corporate' : bool)
    (company_name' : option string) (draw' : Z)
    (db db1 : DB) (user_id : Z) :
  resolve_guest guest_name guest_email is_corporate company_name draw db
  = inr (user_id, db1) ->
  Text.LOWER guest_email' = Text.LOWER guest_email ->
  resolve_guest guest_name' guest_email' is_corporate' company_name' draw' db1
  = inr (user_id, db1).
Proof.
  intros H Hlow. apply resolve_guest_inr in H.
  unfold resolve_guest, bind, query, ret.
  rewrite (find_user_by_email_lower guest_email guest_email' db1 Hlow).
  destruct H as [(u & Hfind & -> & ->) | (Hnone & row & Hmail & <- & ->)].
  - now rewrite Hfind.
  - unfold find_user_by_email in *. simpl.
    rewrite (find_last _ _ row Hnone); [reflexivity |].
    rewrite Hmail. apply String.eqb_refl.
Qed.

Lemma resolve_guest_idempotent_witness :
  let db := Sample.db 5 5 5 in
  exists user_id db1,
    resolve_guest "Ada Lovelace" "Ada@Example.org" true (Some "Analytical")
      1815 db = inr (user_id, db1)
    /\ Text.LOWER "ada@example.ORG" = Text.LOWER "Ada@Example.org"
    /\ resolve_guest "A. King" "ada@example.ORG" false None 1852 db1
       = inr (user_id, db1).
Proof.
  cbv zeta. eexists. eexists.
  assert (H1 : resolve_guest "Ada Lovelace" "Ada@Example.org" true
                 (Some "Analytical") 1815 (Sample.db 5 5 5)
               = inr (2, set_users
                           (users (Sample.db 5 5 5)
                            ++ [User.mk 2 "CORP1815" "Ada" "Lovelace"
                                  "Ada@Example.org" true
                                  (Some "Analytical")])
                           (Sample.db 5 5 5)))
    by (vm_compute; reflexivity).
  assert (H2 : Text.LOWER "ada@example.ORG" = Text.LOWER "Ada@Example.org")
    by (vm_compute; reflexivity).
  split; [exact H1 |]. split; [exact H2 |].
  exact (resolve_guest_idempotent _ _ _ _ _ "A. King" "ada@example.ORG"
           false None 1852 _ _ _ H1 H2).
Defined.

(** ** Cancelling and listing *)

(** C9: cancelling, as the owning guest, a booking whose status is
    already 'cancelled' fails with AlreadyCancelled and leaves the database,
    and so every inventory count, unchanged. *)
Theorem cancel_cancelled_booking (booking_reference guest_email : string)
    (db : DB) (u : User.t) (b : Booking.t) :
  find_user_by_email guest_email db = Some u ->
  find_booking booking_reference db = Some b ->
  Booking.user_id b = User.user_id u ->
  Booking.status b = "cancelled" ->
  cancel_booking booking_reference guest_email db
  = (inl AlreadyCancelled, db).
Proof.
  intros Hu Hb Hown Hst.
  unfold cancel_booking, transaction, cancel_booking_body, bind, query.
  rewrite Hu, Hb, Hown, Z.eqb_refl, Hst. reflexivity.
Qed.

Lemma cancel_cancelled_booking_witness :
  cancel_booking "HTL-20240601120000-4321" "Mary.W@email.com"
    Sample.cancelled_db
  = (inl AlreadyCancelled, Sample.cancelled_db).
Proof.
  apply (cancel_cancelled_booking "HTL-20240601120000-4321"
           "Mary.W@email.com" Sample.cancelled_db Sample.guest
           Sample.cancelled_booking);
    vm_compute; reflexivity.
Defined.

Lemma find_none {A} (f : A -> bool) (l : list A) :
  (forall x, In x l -> f x = false) -> find f l = None.
Proof.
  induction l as [|y l IH]; simpl; intros H; [reflexivity |].
  rewrite (H y) by now left. apply IH. intros x Hx. apply H. now right.
Qed.

(** C10: for an email that matches no guest record (up to letter case),
    [list_bookings_by_email] returns a successful result with bookings_count
    0 and an empty booking list, in place of a NotFound failure, and leaves
    the database unchanged. *)
Theorem list_bookings_unknown_email (guest_email : string)
    (status : option string) (include_past : bool) (current_date : date)
    (db : DB) :
  (forall u, In u (users db) ->
             Text.LOWER (User.email u) <> Text.LOWER guest_email) ->
  list_bookings_by_email guest_email status include_past current_date db
  = (inr (NoBookingsFound "No bookings found for this email address" 0 []),
     db).
Proof.
  intros Hno.
  unfold list_bookings_by_email, without_commit, list_bookings_by_email_body,
    bind, query, find_user_by_email.
  rewrite find_none; [reflexivity |].
  intros u Hu. apply String.eqb_neq, Hno, Hu.
Qed.

Lemma list_bookings_unknown_email_witness :
  list_bookings_by_email "nobody@nowhere.org" (Some "confirmed") false
    Sample.july_1 Sample.cancelled_db
  = (inr (NoBookingsFound "No bookings found for this email address" 0 []),
     Sample.cancelled_db).
Proof.
  apply (list_bookings_unknown_email "nobody@nowhere.org" (Some "confirmed")
           false Sample.july_1 Sample.cancelled_db).
  intros u [<- | []]. vm_compute. discriminate.
Defined.

(** ** The booking lifecycle *)

(** Runs the statements of a cursor program up to the next one whose result
    is not known. *)
Ltac run_cursor :=
  cbv beta iota delta [bind query raise lift execute ret].

Lemma existsb_false_find {A} (f : A -> bool) (l : list A) :
  existsb f l = false -> find f l = None.
Proof.
  induction l as [|y l IH]; simpl; [reflexivity |].
  destruct (f y); simpl; [discriminate | exact IH].
Qed.

Lemma find_hotel_room_frame (hotel_id room_id : Z) (db db1 : DB) :
  hotels db1 = hotels db -> rooms db1 = rooms db ->
  find_hotel_room hotel_id room_id db1 = find_hotel_room hotel_id room_id db.
Proof.
  intros Hh Hr. unfold find_hotel_room, hotels_join_rooms.
  now rewrite Hh, Hr.
Qed.

Lemma min_avail_frame (room_id : Z) (check_in check_out : date)
    (db db1 : DB) :
  room_inventory db1 = room_inventory db ->
  min_avail room_id check_in check_out db1
  = min_avail room_id check_in check_out db.
Proof. intros H. unfold min_avail. now rewrite H. Qed.

(** [create_booking] either raises and leaves the database as it was, or
    returns after it has resolved the guest, found at least one unit on
    every stored night of the stay, appended one confirmed booking under a
    reference no booking had, and taken one unit from every such night. *)
Lemma create_booking_cases (env : environment) (hotel_id room_id : Z)
    (check_in check_out : date) (guest_name guest_email : string)
    (is_corporate : bool) (company_name : option string) (guest_count : Z)
    (purpose : option string) (db : DB) :
  (exists e,
      create_booking env hotel_id room_id check_in check_out guest_name
        guest_email is_corporate company_name guest_count purpose db
      = (inl e, db))
  \/ (exists c user_id db1 m b,
         create_booking env hotel_id room_id check_in check_out guest_name
           guest_email is_corporate company_name guest_count purpose db
         = (inr c,
            update_inventory (-1) room_id check_in check_out
              (set_bookings (bookings db1 ++ [b]) db1))
         /\ resolve_guest guest_name guest_email is_corporate company_name
              (user_code_draw env) db = inr (user_id, db1)
         /\ min_avail room_id check_in check_out db1 = Some m
         /\ 1 <= m
         /\ find_booking (Booking.booking_reference b) db1 = None
         /\ conf_booking_reference c = Booking.booking_reference b
         /\ Booking.user_id b = user_id
         /\ Booking.room_id b = room_id
         /\ Booking.check_in_date b = check_in
         /\ Booking.check_out_date b = check_out
         /\ Booking.status b = "confirmed").
Proof.
  unfold create_booking, transaction, create_booking_body.
  run_cursor.
  destruct (resolve_guest guest_name guest_email is_corporate company_name
              (user_code_draw env) db) as [e | [user_id db1]] eqn:Hguest;
    [left; now exists e |].
  run_cursor.
  destruct (find_hotel_room hotel_id room_id db1) as [[h r]|];
    run_cursor; [| left; eexists; reflexivity].
  destruct (min_avail room_id check_in check_out db1) as [m|] eqn:Hmin;
    run_cursor; [| left; eexists; reflexivity].
  destruct (Z.ltb_spec m 1) as [Hlt | Hge];
    run_cursor; [left; eexists; reflexivity |].
  destruct (calculate_dynamic_price db (Room.base_price r) check_in check_out
              hotel_id is_corporate (Hotel.corporate_discount_percent h))
    as [e | p]; run_cursor; [left; now exists e |].
  unfold insert_booking.
  match goal with
  | |- context [existsb ?f (bookings db1)] =>
      destruct (existsb f (bookings db1)) eqn:Hfresh
  end; run_cursor; [left; eexists; reflexivity |].
  right.
  eexists. exists user_id, db1, m. eexists.
  split; [reflexivity |].
  split; [reflexivity |].
  split; [exact Hmin |].
  split; [exact Hge |].
  split; [apply existsb_false_find; exact Hfresh |].
  repeat split.
Qed.

(** [cancel_booking] either raises and leaves the database as it was, or
    returns after it has found the booking, owned by the guest and not yet
    cancelled, marked it cancelled and given one unit back to every stored
    night of its stay. *)
Lemma cancel_booking_cases (booking_reference guest_email : string)
    (db : DB) :
  (exists e, cancel_booking booking_reference guest_email db = (inl e, db))
  \/ (exists c u b,
         cancel_booking booking_reference guest_email db
         = (inr c,
            update_inventory 1 (Booking.room_id b) (Booking.check_in_date b)
              (Booking.check_out_date b)
              (mark_cancelled booking_reference db))
         /\ find_user_by_email guest_email db = Some u
         /\ find_booking booking_reference db = Some b
         /\ Booking.user_id b = User.user_id u
         /\ Booking.status b <> "cancelled").
Proof.
  unfold cancel_booking, transaction, cancel_booking_body.
  run_cursor.
  destruct (find_user_by_email guest_email db) as [u|];
    run_cursor; [| left; eexists; reflexivity].
  destruct (find_booking booking_reference db) as [b|];
    run_cursor; [| left; eexists; reflexivity].
  destruct (Z.eqb_spec (Booking.user_id b) (User.user_id u)) as [Hown | Hno];
    simpl; run_cursor; [| left; eexists; reflexivity].
  destruct (String.eqb_spec (Booking.status b) "cancelled") as [Hst | Hst];
    run_cursor; [left; eexists; reflexivity |].
  right. eexists. exists u, b.
  repeat split; assumption.
Qed.

Lemma in_stay_add_available (delta room_id : Z) (check_in check_out : date)
    (i : Inventory.t) :
  in_stay room_id check_in check_out (add_available delta i)
  = in_stay room_id check_in check_out i.
Proof. reflexivity. Qed.

Lemma room_inventory_update (delta room_id : Z) (check_in check_out : date)
    (db : DB) :
  room_inventory (update_inventory delta room_id check_in check_out db)
  = map (fun i => if in_stay room_id check_in check_out i
                  then add_available delta i else i)
        (room_inventory db).
Proof. reflexivity. Qed.

(** Giving a unit back to the nights a unit was taken from restores the
    table. *)
Lemma update_inventory_inverse (room_id : Z) (check_in check_out : date)
    (inv : list Inventory.t) :
  map (fun i => if in_stay room_id check_in check_out i
                then add_available 1 i else i)
      (map (fun i => if in_stay room_id check_in check_out i
                     then add_available (-1) i else i)
           inv)
  = inv.
Proof.
  rewrite map_map. rewrite <- (map_id inv) at 2.
  apply map_ext. intros i.
  destruct (in_stay room_id check_in check_out i) eqn:E.
  - rewrite in_stay_add_available, E.
    destruct i as [r d n p]. unfold add_available; simpl.
    f_equal. lia.
  - now rewrite E.
Qed.

(** One operation keeps every count at or above zero. *)
Lemma step_nonnegative (db : DB) (op : operation) :
  inventory_nonnegative db -> inventory_nonnegative (step db op).
Proof.
  unfold inventory_nonnegative. intros Hinv.
  destruct op as [env h r ci co name email corp company count purpose
                 | ref email]; simpl.
  - destruct (create_booking_cases env h r ci co name email corp company
                count purpose db)
      as [[e ->] | (c & uid & db1 & m & b & -> & Hguest & Hmin & Hm & _)];
      [exact Hinv |].
    simpl. apply resolve_guest_frame in Hguest.
    destruct Hguest as (_ & _ & _ & Hsame & _).
    rewrite (min_avail_frame _ _ _ _ _ Hsame) in Hmin.
    rewrite Hsame. apply MIN_spec in Hmin. destruct Hmin as [_ Hleast].
    rewrite Forall_forall in Hinv |- *.
    intros i' Hi'. apply in_map_iff in Hi'.
    destruct Hi' as (i & <- & Hi).
    destruct (in_stay r ci co i) eqn:E; [| now apply Hinv].
    simpl.
    assert (m <= Inventory.available_count i).
    { apply Hleast, in_map, filter_In. now split. }
    lia.
  - destruct (cancel_booking_cases ref email db)
      as [[e ->] | (c & u & b & -> & _)]; [exact Hinv |].
    simpl. rewrite Forall_forall in Hinv |- *.
    intros i' Hi'. apply in_map_iff in Hi'.
    destruct Hi' as (i & <- & Hi).
    specialize (Hinv i Hi).
    destruct (in_stay _ _ _ i); simpl; lia.
Qed.

(** C4: from a database in which every inventory entry has a count of at
    least zero, every count is at least zero after each operation of any
    sequence of createBooking and cancelBooking operations run one after
    the other. *)
Theorem inventory_never_negative (db : DB) (ops : list operation) :
  inventory_nonnegative db ->
  Forall inventory_nonnegative (trace db ops).
Proof.
  revert db. induction ops as [|op ops IH]; intros db Hinv; simpl.
  - constructor.
  - pose proof (step_nonnegative db op Hinv) as Hstep.
    constructor; [exact Hstep | apply IH, Hstep].
Qed.

Lemma inventory_never_negative_witness :
  let db := Sample.db 1 5 5 in
  let ops :=
    [CreateBooking Sample.env 1 1 Sample.july_1 (Sample.july_1 + 3)
       "Mary Williams" "mary.w@email.com" false None 1 None;
     CreateBooking Sample.env 1 1 Sample.july_1 (Sample.july_1 + 3)
       "David Brown" "d.brown@webmail.com" false None 2 None;
     CancelBooking "HTL-20240601120000-4321" "mary.w@email.com";
     CancelBooking "HTL-20240601120000-4321" "mary.w@email.com"] in
  inventory_nonnegative db
  /\ Forall inventory_nonnegative (trace db ops)
  /\ map (fun s => map Inventory.available_count (room_inventory s))
         (trace db ops)
     = [[0; 4; 4]; [0; 4; 4]; [1; 5; 5]; [1; 5; 5]].
Proof.
  cbv zeta.
  assert (H : inventory_nonnegative (Sample.db 1 5 5)).
  { unfold inventory_nonnegative. simpl.
    repeat constructor; simpl; lia. }
  split; [exact H |].
  split; [exact (inventory_never_negative (Sample.db 1 5 5) _ H) |].
  vm_compute. reflexivity.
Defined.

(** C5: when [create_booking] returns and [cancel_booking] of the returned
    reference, run next, returns too, the inventory table is the one from
    before the booking: every date the booking touched has its pre-booking
    count again (and no other entry has changed). *)
Theorem create_then_cancel_restores_inventory
    (env : environment) (hotel_id room_id : Z) (check_in check_out : date)
    (guest_name guest_email : string) (is_corporate : bool)
    (company_name : option string) (guest_count : Z)
    (purpose : option string) (cancel_email : string)
    (db db1 db2 : DB) (c : confirmation) (x : cancellation) :
  create_booking env hotel_id room_id check_in check_out guest_name
    guest_email is_corporate company_name guest_count purpose db
  = (inr c, db1) ->
  cancel_booking (conf_booking_reference c) cancel_email db1 = (inr x, db2) ->
  room_inventory db2 = room_inventory db.
Proof.
  intros Hcreate Hcancel.
  destruct (create_booking_cases env hotel_id room_id check_in check_out
              guest_name guest_email is_corporate company_name guest_count
              purpose db)
    as [[e He] | (c' & uid & g & m & b & Hc & Hguest & _ & _ & Hfresh & Href
                  & _ & Hroom & Hin & Hout & _)];
    [congruence |].
  rewrite Hcreate in Hc. injection Hc as <- ->.
  destruct (cancel_booking_cases (conf_booking_reference c) cancel_email
              (update_inventory (-1) room_id check_in check_out
                 (set_bookings (bookings g ++ [b]) g)))
    as [[e He] | (x' & u & b' & Hx & _ & Hfind & _)];
    [congruence |].
  rewrite Hcancel in Hx. injection Hx as <- ->.
  assert (Hb : b' = b).
  { unfold find_booking in Hfind, Hfresh. simpl in Hfind.
    rewrite Href in Hfind.
    rewrite (find_last _ _ b Hfresh) in Hfind by apply String.eqb_refl.
    congruence. }
  subst b'. rewrite Hroom, Hin, Hout.
  rewrite room_inventory_update. simpl.
  rewrite update_inventory_inverse.
  apply resolve_guest_frame in Hguest. tauto.
Qed.

Lemma create_then_cancel_restores_inventory_witness :
  let booked :=
    create_booking Sample.env 1 1 Sample.july_1 (Sample.july_1 + 3)
      "Mary Williams" "mary.w@email.com" false None 1 None
      (Sample.db 5 2 1) in
  let cancelled :=
    cancel_booking "HTL-20240601120000-4321" "Mary.W@Email.com"
      (snd booked) in
  fst booked = inr Sample.confirmed
  /\ map Inventory.available_count (room_inventory (snd booked)) = [4; 1; 0]
  /\ fst cancelled = inr (mkCancellation "HTL-20240601120000-4321" "cancelled")
  /\ room_inventory (snd cancelled) = room_inventory (Sample.db 5 2 1).
Proof.
  intros booked cancelled.
  split; [vm_compute; reflexivity |].
  split; [vm_compute; reflexivity |].
  split; [vm_compute; reflexivity |].
  apply (create_then_cancel_restores_inventory Sample.env 1 1 Sample.july_1
           (Sample.july_1 + 3) "Mary Williams" "mary.w@email.com" false None
           1 None "Mary.W@Email.com" (Sample.db 5 2 1) (snd booked)
           (snd cancelled) Sample.confirmed
           (mkCancellation "HTL-20240601120000-4321" "cancelled")).
  - vm_compute. reflexivity.
  - vm_compute. reflexivity.
Defined.

(** A stay with a stored night that has no unit left is refused before any
    row is written, and the guest row the resolver may have added is rolled
    back. *)
Lemma create_booking_unavailable (env : environment) (hotel_id room_id : Z)
    (check_in check_out : date) (guest_name guest_email : string)
    (is_corporate : bool) (company_name : option string) (guest_count : Z)
    (purpose : option string) (db db1 : DB) (user_id m : Z) :
  resolve_guest guest_name guest_email is_corporate company_name
    (user_code_draw env) db = inr (user_id, db1) ->
  find_hotel_room hotel_id room_id db <> None ->
  min_avail room_id check_in check_out db = Some m ->
  m < 1 ->
  create_booking env hotel_id room_id check_in check_out guest_name
    guest_email is_corporate company_name guest_count purpose db
  = (inl InsufficientInventory, db).
Proof.
  intros Hguest Hroom Hmin Hm.
  pose proof (resolve_guest_frame _ _ _ _ _ _ _ _ Hguest)
    as (Hh & Hr & _ & Hinv & _).
  unfold create_booking, transaction, create_booking_body.
  run_cursor. rewrite Hguest. run_cursor.
  rewrite (find_hotel_room_frame _ _ _ _ Hh Hr).
  destruct (find_hotel_room hotel_id room_id db) as [[h r]|];
    [| contradiction].
  run_cursor. rewrite (min_avail_frame _ _ _ _ _ Hinv), Hmin. run_cursor.
  destruct (Z.ltb_spec m 1); [reflexivity | lia].
Qed.

(** C2, as stated, fails: with 1 unit on one of the three nights and 5 on
    the other two, [create_booking] returns a confirmation; afterwards the
    booking row exists and the three counts are one lower. *)
Lemma one_unit_night_counterexample :
  let db := Sample.db 5 1 5 in
  let booked :=
    create_booking Sample.env 1 1 Sample.july_1 (Sample.july_1 + 3)
      "Mary Williams" "mary.w@email.com" false None 1 None db in
  map Inventory.available_count
      (filter (in_stay 1 Sample.july_1 (Sample.july_1 + 3))
              (room_inventory db)) = [5; 1; 5]
  /\ fst booked = inr Sample.confirmed
  /\ map Booking.booking_reference (bookings (snd booked))
     = ["HTL-20240601120000-4321"]
  /\ map Inventory.available_count (room_inventory (snd booked)) = [4; 0; 4].
Proof.
  cbv zeta. repeat split; vm_compute; reflexivity.
Qed.

(** C2 (amended): for a createBooking request over three nights, of a guest
    the resolver accepts and an existing hotel and room, where the room's
    available-unit count is 0 on one requested night and 5 on the other two,
    the operation fails with InsufficientInventory and leaves the database
    as it was: no booking row exists that did not, and no inventory row has
    changed. *)
Theorem create_booking_sold_out_night (env : environment)
    (hotel_id room_id : Z) (check_in : date)
    (guest_name guest_email : string) (is_corporate : bool)
    (company_name : option string) (guest_count : Z)
    (purpose : option string) (db db1 : DB) (user_id : Z) :
  resolve_guest guest_name guest_email is_corporate company_name
    (user_code_draw env) db = inr (user_id, db1) ->
  find_hotel_room hotel_id room_id db <> None ->
  Permutation
    (map Inventory.available_count
         (filter (in_stay room_id check_in (check_in + 3))
                 (room_inventory db)))
    [0; 5; 5] ->
  create_booking env hotel_id room_id check_in (check_in + 3) guest_name
    guest_email is_corporate company_name guest_count purpose db
  = (inl InsufficientInventory, db).
Proof.
  intros Hguest Hroom Hperm.
  destruct (min_avail room_id check_in (check_in + 3) db) as [m|] eqn:Hmin.
  - apply (create_booking_unavailable env hotel_id room_id check_in
             (check_in + 3) guest_name guest_email is_corporate company_name
             guest_count purpose db db1 user_id m Hguest Hroom Hmin).
    apply MIN_spec in Hmin. destruct Hmin as [_ Hleast].
    assert (m <= 0); [| lia].
    apply Hleast.
    apply (Permutation_in _ (Permutation_sym Hperm)). now left.
  - apply MIN_None in Hmin. unfold min_avail in Hmin.
    rewrite Hmin in Hperm. apply Permutation_nil in Hperm. discriminate.
Qed.

Lemma create_booking_sold_out_night_witness :
  let db := Sample.db 5 0 5 in
  create_booking Sample.env 1 1 Sample.july_1 (Sample.july_1 + 3)
    "Mary Williams" "mary.w@email.com" false None 1 None db
  = (inl InsufficientInventory, db)
  /\ bookings db = [].
Proof.
  cbv zeta. split; [| reflexivity].
  apply (create_booking_sold_out_night Sample.env 1 1 Sample.july_1
           "Mary Williams" "mary.w@email.com" false None 1 None
           (Sample.db 5 0 5) (Sample.db 5 0 5) 1).
  - vm_compute. reflexivity.
  - vm_compute. discriminate.
  - change (Permutation [5; 0; 5] [0; 5; 5]). apply perm_swap.
Defined.

(** ** The availability check *)

(** C3, as stated, fails: the night of 2024-07-04 lies in the asked range
    and has no inventory entry, yet the check returns an availability of 1
    unit, the minimum over the entries that exist, and no "no data"
    result. *)
Lemma missing_night_counterexample :
  let db := Sample.db 5 1 5 in
  let missing := Sample.july_1 + 3 in
  Sample.july_1 <= missing < Sample.july_1 + 5
  /\ (forall i, In i (room_inventory db) -> Inventory.date i <> missing)
  /\ fst (check_room_availability 1 Sample.july_1 (Sample.july_1 + 5) db)
     = inr (RoomAvailability true 1 "Grand Plaza Hotel" "New York"
              "Standard King" 2 1 (room_inventory db)).
Proof.
  cbv zeta. split; [lia |].
  split; [| vm_compute; reflexivity].
  intros i Hi. simpl in Hi.
  destruct Hi as [<- | [<- | [<- | []]]]; vm_compute; discriminate.
Qed.

(** C3 (amended): for every existing room and date range, the availability
    check returns the distinct "no data" result exactly when no date of the
    range has an inventory entry for the room, and otherwise the minimum
    available-unit count over the entries that exist for dates of the range
    (a missing date does not count); it changes nothing. *)
Theorem check_room_availability_minimum (room_id : Z)
    (check_in check_out : date) (db : DB) (r : Room.t) (h : Hotel.t) :
  find_room room_id db = Some (r, h) ->
  let entries :=
    filter (in_stay room_id check_in check_out) (room_inventory db) in
  (entries = []
   /\ check_room_availability room_id check_in check_out db
      = (inr (NoInventoryData false
                "No inventory data for the selected dates" (r, h)), db))
  \/ (exists m daily,
         entries <> []
         /\ In m (map Inventory.available_count entries)
         /\ (forall i, In i entries -> m <= Inventory.available_count i)
         /\ Permutation daily entries
         /\ check_room_availability room_id check_in check_out db
            = (inr (RoomAvailability (0 <? m) room_id (Hotel.hotel_name h)
                      (Hotel.city h) (Room.room_type r)
                      (Room.max_occupancy r) m daily), db)).
Proof.
  intros Hroom entries.
  unfold check_room_availability, without_commit,
    check_room_availability_body.
  run_cursor. rewrite Hroom. run_cursor.
  pose proof (order_by_asc_perm Inventory.date entries) as Hperm.
  fold entries in Hperm |- *. unfold fetch_inventory. fold entries.
  destruct (order_by_asc Inventory.date entries) as [|row rest] eqn:E.
  - left. apply Permutation_nil in Hperm. now split.
  - right.
    exists (fold_left Z.min (map Inventory.available_count rest)
              (Inventory.available_count row)), (row :: rest).
    destruct (MIN_spec (map Inventory.available_count (row :: rest)) _
                eq_refl) as [Hin Hleast].
    split.
    { intros Hnil. rewrite Hnil in Hperm.
      apply Permutation_sym, Permutation_nil in Hperm. discriminate. }
    split.
    { apply (Permutation_in _ (Permutation_map _ Hperm)), Hin. }
    split.
    { intros i Hi. apply Hleast, in_map.
      apply (Permutation_in _ (Permutation_sym Hperm)), Hi. }
    split; [exact Hperm | reflexivity].
Qed.

Lemma check_room_availability_minimum_witness :
  let db := Sample.db 5 0 5 in
  find_room 1 db = Some (Sample.room, Sample.hotel)
  /\ fst (check_room_availability 1 (Sample.july_1 + 3) (Sample.july_1 + 5) db)
     = inr (NoInventoryData false "No inventory data for the selected dates"
              (Sample.room, Sample.hotel))
  /\ exists daily,
       fst (check_room_availability 1 Sample.july_1 (Sample.july_1 + 3) db)
       = inr (RoomAvailability false 1 "Grand Plaza Hotel" "New York"
                "Standard King" 2 0 daily).
Proof.
  cbv zeta.
  assert (Hroom : find_room 1 (Sample.db 5 0 5)
                  = Some (Sample.room, Sample.hotel))
    by (vm_compute; reflexivity).
  split; [exact Hroom |]. split.
  - destruct (check_room_availability_minimum 1 (Sample.july_1 + 3)
                (Sample.july_1 + 5) (Sample.db 5 0 5) Sample.room
                Sample.hotel Hroom)
      as [[_ ->] | (m & daily & Hne & _)]; [reflexivity |].
    exfalso. apply Hne. vm_compute. reflexivity.
  - vm_compute. eexists. reflexivity.
Defined.

(** * Further properties of the code *)

(** ** [create_booking], step by step *)

(** [create_booking] as the chain of its tests: each failure returns the
    database it started from. *)
Lemma create_booking_run (env : environment) (hotel_id room_id : Z)
    (check_in check_out : date) (guest_name guest_email : string)
    (is_corporate : bool) (company_name : option string) (guest_count : Z)
    (purpose : option string) (db : DB) :
  create_booking env hotel_id room_id check_in check_out guest_name
    guest_email is_corporate company_name guest_count purpose db
  = match resolve_guest guest_name guest_email is_corporate company_name
            (user_code_draw env) db with
    | inl e => (inl e, db)
    | inr (user_id, db1) =>
        match find_hotel_room hotel_id room_id db1 with
        | None => (inl HotelOrRoomNotFound, db)
        | Some (h, r) =>
            match min_avail room_id check_in check_out db1 with
            | None => (inl TypeError, db)
            | Some m =>
                if m <? 1 then (inl InsufficientInventory, db)
                else
                  match calculate_dynamic_price db (Room.base_price r)
                          check_in check_out hotel_id is_corporate
                          (Hotel.corporate_discount_percent h) with
                  | inl e => (inl e, db)
                  | inr p =>
                      let b := booking_row env user_id hotel_id room_id
                                 check_in check_out guest_name guest_count
                                 purpose p in
                      match find_booking (Booking.booking_reference b) db1
                      with
                      | Some _ =>
                          (inl (IntegrityError "bookings.booking_reference"),
                           db)
                      | None =>
                          (inr (confirmation_of env check_in check_out
                                  guest_name guest_email is_corporate
                                  company_name purpose p),
                           update_inventory (-1) room_id check_in check_out
                             (set_bookings (bookings db1 ++ [b]) db1))
                      end
                  end
            end
        end
    end.
Proof.
  unfold create_booking, transaction, create_booking_body.
  run_cursor.
  destruct (resolve_guest guest_name guest_email is_corporate company_name
              (user_code_draw env) db) as [e | [user_id db1]];
    [reflexivity |].
  run_cursor.
  destruct (find_hotel_room hotel_id room_id db1) as [[h r]|];
    run_cursor; [| reflexivity].
  destruct (min_avail room_id check_in check_out db1) as [m|];
    run_cursor; [| reflexivity].
  destruct (m <? 1); run_cursor; [reflexivity |].
  destruct (calculate_dynamic_price db (Room.base_price r) check_in check_out
              hotel_id is_corporate (Hotel.corporate_discount_percent h))
    as [e | p]; run_cursor; [reflexivity |].
  cbv zeta. unfold insert_booking, find_booking, booking_row.
  cbn [Booking.booking_reference].
  match goal with
  | |- context [existsb ?f (bookings db1)] =>
      destruct (existsb f (bookings db1)) eqn:Hfresh
  end; run_cursor.
  - destruct (find _ (bookings db1)) eqn:Hfind; [reflexivity |].
    apply existsb_exists in Hfresh. destruct Hfresh as (b' & Hin & Hb').
    pose proof (List.find_none _ _ Hfind b' Hin). congruence.
  - rewrite (existsb_false_find _ _ Hfresh). reflexivity.
Qed.

(** A result of the pricer counts the days from check-in to check-out, which
    are not zero. *)
Lemma calculate_dynamic_price_inr (db : DB) (base_price : float)
    (check_in check_out : date) (hotel_id : Z) (is_corporate : bool)
    (corporate_discount : float) (p : pricing) :
  calculate_dynamic_price db base_price check_in check_out hotel_id
    is_corporate corporate_discount = inr p ->
  nights p = check_out - check_in /\ check_out <> check_in.
Proof.
  unfold calculate_dynamic_price, calculate_nights.
  destruct (is_corporate && (0 <? corporate_discount)%float);
    destruct (Z.eqb_spec (check_out - check_in) 0);
    try discriminate; intros [= <-]; simpl; split; (reflexivity || lia).
Qed.


(** A minimum over the stay exists only when a stored night lies in it. *)
Lemma min_avail_Some (room_id : Z) (check_in check_out : date) (db : DB)
    (m : Z) :
  min_avail room_id check_in check_out db = Some m ->
  (exists i, In i (room_inventory db)
             /\ in_stay room_id check_in check_out i = true
             /\ Inventory.available_count i = m)
  /\ (forall i, In i (room_inventory db) ->
                in_stay room_id check_in check_out i = true ->
                m <= Inventory.available_count i)
  /\ check_in < check_out.
Proof.
  unfold min_avail. intros H. apply MIN_spec in H. destruct H as [Hin Hle].
  apply in_map_iff in Hin. destruct Hin as (i & Hi & Hf).
  apply filter_In in Hf. destruct Hf as [Hf1 Hf2].
  split; [now exists i |]. split.
  - intros j Hj1 Hj2. apply Hle, in_map, filter_In. now split.
  - unfold in_stay in Hf2.
    apply andb_prop in Hf2. destruct Hf2 as [Hf2 Hlt].
    apply andb_prop in Hf2. destruct Hf2 as [_ Hge].
    apply Z.leb_le in Hge. apply Z.ltb_lt in Hlt. lia.
Qed.

Lemma find_booking_None (booking_reference : string) (db : DB) :
  find_booking booking_reference db = None <->
  (forall b, In b (bookings db) ->
             Booking.booking_reference b <> booking_reference).
Proof.
  unfold find_booking. split.
  - intros H b Hb E.
    pose proof (List.find_none _ _ H b Hb) as Hf. simpl in Hf.
    rewrite E, String.eqb_refl in Hf. discriminate.
  - intros H. apply find_none. intros b Hb.
    apply String.eqb_neq, H, Hb.
Qed.

(** X1: What a confirmed booking has done: one confirmed row, under a reference
    no booking had, is appended for the stay at the confirmed amount; each
    stored night of the stay has one unit less and every other inventory
    entry, the hotels, the rooms and the pricing rules are as before. *)
Theorem create_booking_effect (env : environment) (hotel_id room_id : Z)
    (check_in check_out : date) (guest_name guest_email : string)
    (is_corporate : bool) (company_name : option string) (guest_count : Z)
    (purpose : option string) (db db' : DB) (c : confirmation) :
  create_booking env hotel_id room_id check_in check_out guest_name
    guest_email is_corporate company_name guest_count purpose db
  = (inr c, db') ->
  (exists b,
      bookings db' = (bookings db ++ [b])%list
      /\ Booking.booking_reference b = conf_booking_reference c
      /\ Booking.status b = "confirmed"
      /\ Booking.hotel_id b = hotel_id
      /\ Booking.room_id b = room_id
      /\ Booking.check_in_date b = check_in
      /\ Booking.check_out_date b = check_out
      /\ Booking.nights b = conf_nights c
      /\ Booking.total_amount b = conf_total_amount c)
  /\ (forall b0, In b0 (bookings db) ->
                 Booking.booking_reference b0 <> conf_booking_reference c)
  /\ room_inventory db'
     = map (fun i => if in_stay room_id check_in check_out i
                     then add_available (-1) i else i)
           (room_inventory db)
  /\ hotels db' = hotels db
  /\ rooms db' = rooms db
  /\ pricing_rules db' = pricing_rules db.
Proof.
  rewrite create_booking_run.
  destruct (resolve_guest _ _ _ _ _ db) as [e | [user_id db1]] eqn:Hguest;
    [discriminate |].
  apply resolve_guest_frame in Hguest.
  destruct Hguest as (Hh & Hr & Hp & Hi & Hb).
  destruct (find_hotel_room hotel_id room_id db1) as [[h r]|];
    [| discriminate].
  destruct (min_avail room_id check_in check_out db1) as [m|];
    [| discriminate].
  destruct (m <? 1); [discriminate |].
  destruct (calculate_dynamic_price _ _ _ _ _ _ _) as [e | p];
    [discriminate |].
  cbv zeta.
  destruct (find_booking _ db1) eqn:Hfresh; [discriminate |].
  intros [= <- <-].
  split.
  { eexists. split; [simpl; rewrite Hb; reflexivity |]. repeat split. }
  split.
  { rewrite find_booking_None in Hfresh. rewrite Hb in Hfresh.
    exact Hfresh. }
  simpl. rewrite Hi. repeat split; assumption.
Qed.

Lemma create_booking_effect_witness :
  let booked :=
    create_booking Sample.env 1 1 Sample.july_1 (Sample.july_1 + 2)
      "Mary Williams" "mary.w@email.com" false None 1 None
      (Sample.db 5 2 1) in
  exists c,
    booked = (inr c, snd booked)
    /\ map Booking.status (bookings (snd booked)) = ["confirmed"]
    /\ map Inventory.available_count (room_inventory (snd booked))
       = [4; 1; 1].
Proof.
  intros booked.
  assert (H : booked
              = (inr (confirmation_of Sample.env Sample.july_1
                        (Sample.july_1 + 2) "Mary Williams"
                        "mary.w@email.com" false None None
                        (mkPricing 300 150 2
                           (mkBreakdown 200 300 0 0 300) 0)),
                 snd booked))
    by (vm_compute; reflexivity).
  eexists. split; [exact H |].
  destruct (create_booking_effect _ _ _ _ _ _ _ _ _ _ _ _ _ _ H)
    as ((b & Hb & _ & Hst & _) & _ & Hinv & _).
  split.
  - rewrite Hb. simpl. now rewrite Hst.
  - rewrite Hinv. vm_compute. reflexivity.
Defined.

(** X2: A confirmed booking is for at least one night: check-out is after
    check-in, and the nights stored and confirmed are the days between
    them.  A request with check-out on or before check-in is never
    confirmed. *)
Theorem create_booking_nights (env : environment) (hotel_id room_id : Z)
    (check_in check_out : date) (guest_name guest_email : string)
    (is_corporate : bool) (company_name : option string) (guest_count : Z)
    (purpose : option string) (db db' : DB) (c : confirmation) :
  create_booking env hotel_id room_id check_in check_out guest_name
    guest_email is_corporate company_name guest_count purpose db
  = (inr c, db') ->
  check_in < check_out
  /\ conf_nights c = check_out - check_in
  /\ 1 <= conf_nights c.
Proof.
  rewrite create_booking_run.
  destruct (resolve_guest _ _ _ _ _ db) as [e | [user_id db1]];
    [discriminate |].
  destruct (find_hotel_room hotel_id room_id db1) as [[h r]|];
    [| discriminate].
  destruct (min_avail room_id check_in check_out db1) as [m|] eqn:Hmin;
    [| discriminate].
  destruct (m <? 1); [discriminate |].
  destruct (calculate_dynamic_price _ _ _ _ _ _ _) as [e | p] eqn:Hp;
    [discriminate |].
  cbv zeta. destruct (find_booking _ db1); [discriminate |].
  intros [= <- _]. simpl.
  apply min_avail_Some in Hmin. destruct Hmin as (_ & _ & Hlt).
  apply calculate_dynamic_price_inr in Hp. destruct Hp as [Hn _].
  rewrite Hn. lia.
Qed.

Lemma create_booking_nights_witness :
  let booked :=
    create_booking Sample.env 1 1 Sample.july_1 (Sample.july_1 + 2)
      "Mary Williams" "mary.w@email.com" false None 1 None
      (Sample.db 5 2 1) in
  exists c, booked = (inr c, snd booked) /\ conf_nights c = 2.
Proof.
  intros booked.
  assert (H : booked
              = (inr (confirmation_of Sample.env Sample.july_1
                        (Sample.july_1 + 2) "Mary Williams"
                        "mary.w@email.com" false None None
                        (mkPricing 300 150 2
                           (mkBreakdown 200 300 0 0 300) 0)),
                 snd booked))
    by (vm_compute; reflexivity).
  eexists. split; [exact H |].
  destruct (create_booking_nights _ _ _ _ _ _ _ _ _ _ _ _ _ _ H)
    as (_ & Hn & _).
  rewrite Hn. lia.
Defined.




(** X4: With no stored night of the room in the asked range (so also when
    check-out is on or before check-in) the minimum is NULL and its
    comparison with 1 raises TypeError, not the "Room not available"
    ValueError; nothing is written. *)
Theorem create_booking_no_inventory (env : environment)
    (hotel_id room_id : Z) (check_in check_out : date)
    (guest_name guest_email : string) (is_corporate : bool)
    (company_name : option string) (guest_count : Z)
    (purpose : option string) (db db1 : DB) (user_id : Z) :
  resolve_guest guest_name guest_email is_corporate company_name
    (user_code_draw env) db = inr (user_id, db1) ->
  find_hotel_room hotel_id room_id db <> None ->
  (check_out <= check_in
   \/ forall i, In i (room_inventory db) ->
                Inventory.room_id i = room_id ->
                ~ check_in <= Inventory.date i < check_out) ->
  create_booking env hotel_id room_id check_in check_out guest_name
    guest_email is_corporate company_name guest_count purpose db
  = (inl TypeError, db).
Proof.
  intros Hguest Hroom Hnone.
  pose proof (resolve_guest_frame _ _ _ _ _ _ _ _ Hguest)
    as (Hh & Hr & _ & Hi & _).
  rewrite create_booking_run, Hguest.
  rewrite (find_hotel_room_frame _ _ _ _ Hh Hr).
  destruct (find_hotel_room hotel_id room_id db) as [[h r]|];
    [| contradiction].
  rewrite (min_avail_frame _ _ _ _ _ Hi).
  destruct (min_avail room_id check_in check_out db) as [m|] eqn:Hmin;
    [| reflexivity].
  exfalso. apply min_avail_Some in Hmin.
  destruct Hmin as ((i & Hin & Hstay & _) & _ & Hlt).
  destruct Hnone as [Hle | Hno]; [lia |].
  unfold in_stay in Hstay.
  apply andb_prop in Hstay. destruct Hstay as [Hstay H3].
  apply andb_prop in Hstay. destruct Hstay as [H1 H2].
  apply (Hno i Hin); [now apply Z.eqb_eq |].
  apply Z.leb_le in H2. apply Z.ltb_lt in H3. lia.
Qed.

Lemma create_booking_no_inventory_witness :
  let db := Sample.db 5 5 5 in
  create_booking Sample.env 1 1 (Sample.july_1 + 2) Sample.july_1
    "Mary Williams" "mary.w@email.com" false None 1 None db
  = (inl TypeError, db).
Proof.
  cbv zeta.
  apply (create_booking_no_inventory Sample.env 1 1 (Sample.july_1 + 2)
           Sample.july_1 "Mary Williams" "mary.w@email.com" false None 1
           None (Sample.db 5 5 5) (Sample.db 5 5 5) 1).
  - vm_compute. reflexivity.
  - vm_compute. discriminate.
  - left. lia.
Defined.

Lemma find_hotel_room_None (hotel_id room_id : Z) (db : DB) :
  (forall r, In r (rooms db) ->
             ~ (Room.room_id r = room_id /\ Room.hotel_id r = hotel_id)) ->
  find_hotel_room hotel_id room_id db = None.
Proof.
  intros Hno. unfold find_hotel_room. apply find_none.
  intros [h r] Hin. simpl.
  unfold hotels_join_rooms in Hin. apply in_flat_map in Hin.
  destruct Hin as (h' & _ & Hin). apply in_map_iff in Hin.
  destruct Hin as (r' & [= -> ->] & Hin). apply filter_In in Hin.
  destruct Hin as [Hin Hj]. apply Z.eqb_eq in Hj.
  destruct (Z.eqb_spec (Hotel.hotel_id h) hotel_id) as [E1 | E1];
    [| reflexivity].
  destruct (Z.eqb_spec (Room.room_id r) room_id) as [E2 | E2];
    [| reflexivity].
  exfalso. apply (Hno r Hin). split; [exact E2 | congruence].
Qed.

(** X5: A room that does not belong to the hotel (or does not exist) makes
    [create_booking] fail with "Hotel or room not found"; the guest row the
    resolver may have inserted is rolled back with everything else. *)
Theorem create_booking_unknown_room (env : environment)
    (hotel_id room_id : Z) (check_in check_out : date)
    (guest_name guest_email : string) (is_corporate : bool)
    (company_name : option string) (guest_count : Z)
    (purpose : option string) (db db1 : DB) (user_id : Z) :
  resolve_guest guest_name guest_email is_corporate company_name
    (user_code_draw env) db = inr (user_id, db1) ->
  (forall r, In r (rooms db) ->
             ~ (Room.room_id r = room_id /\ Room.hotel_id r = hotel_id)) ->
  create_booking env hotel_id room_id check_in check_out guest_name
    guest_email is_corporate company_name guest_count purpose db
  = (inl HotelOrRoomNotFound, db).
Proof.
  intros Hguest Hno.
  pose proof (resolve_guest_frame _ _ _ _ _ _ _ _ Hguest)
    as (Hh & Hr & _).
  rewrite create_booking_run, Hguest.
  rewrite (find_hotel_room_frame _ _ _ _ Hh Hr).
  now rewrite (find_hotel_room_None _ _ _ Hno).
Qed.

Lemma create_booking_unknown_room_witness :
  let db := Sample.db 5 5 5 in
  create_booking Sample.env 2 1 Sample.july_1 (Sample.july_1 + 3)
    "Ada Lovelace" "ada@example.org" true (Some "Analytical") 2 None db
  = (inl HotelOrRoomNotFound, db)
  /\ users db = [Sample.guest].
Proof.
  cbv zeta. split; [| reflexivity].
  apply (create_booking_unknown_room Sample.env 2 1 Sample.july_1
           (Sample.july_1 + 3) "Ada Lovelace" "ada@example.org" true
           (Some "Analytical") 2 None (Sample.db 5 5 5)
           (set_users
              (users (Sample.db 5 5 5)
               ++ [User.mk 2 "CORP1234" "Ada" "Lovelace" "ada@example.org"
                     true (Some "Analytical")])
              (Sample.db 5 5 5))
           2).
  - vm_compute. reflexivity.
  - intros r [<- | []] [_ H]. vm_compute in H. discriminate.
Defined.

(** ** New guests *)





(** X8: A drawn user code that a stored guest already carries makes the insert
    of a new guest fail on the UNIQUE constraint: the resolver raises, and
    so the booking does. *)
Theorem resolve_guest_code_taken (guest_name guest_email : string)
    (is_corporate : bool) (company_name : option string) (draw : Z)
    (db : DB) (u : User.t) :
  find_user_by_email guest_email db = None ->
  In u (users db) ->
  User.user_code u
  = (if is_corporate then "CORP" else "INDV") ++ Text.decimal draw ->
  resolve_guest guest_name guest_email is_corporate company_name draw db
  = inl (IntegrityError "users.user_code").
Proof.
  intros Hnone Hin Hcode. unfold resolve_guest. run_cursor. rewrite Hnone.
  unfold insert_user.
  match goal with
  | |- context [existsb ?f (users db)] =>
      assert (He : existsb f (users db) = true)
  end.
  { apply existsb_exists. exists u. split; [exact Hin |].
    rewrite Hcode. apply String.eqb_refl. }
  now rewrite He.
Qed.

Lemma resolve_guest_code_taken_witness :
  resolve_guest "Grace Hopper" "grace@example.org" false None 1001
    (Sample.db 5 5 5)
  = inl (IntegrityError "users.user_code").
Proof.
  apply (resolve_guest_code_taken "Grace Hopper" "grace@example.org" false
           None 1001 (Sample.db 5 5 5) Sample.guest).
  - vm_compute. reflexivity.
  - simpl. now left.
  - vm_compute. reflexivity.
Defined.

(** ** [cancel_booking], step by step *)

(** [cancel_booking] as the chain of its tests. *)
Lemma cancel_booking_run (booking_reference guest_email : string) (db : DB) :
  cancel_booking booking_reference guest_email db
  = match find_user_by_email guest_email db with
    | None => (inl GuestNotFound, db)
    | Some u =>
        match find_booking booking_reference db with
        | None => (inl BookingNotFound, db)
        | Some b =>
            if negb (Booking.user_id b =? User.user_id u)
            then (inl Unauthorized, db)
            else if (Booking.status b =? "cancelled")%string
            then (inl AlreadyCancelled, db)
            else
              (inr {| cancelled_reference := booking_reference;
                      cancelled_status := "cancelled" |},
               update_inventory 1 (Booking.room_id b)
                 (Booking.check_in_date b) (Booking.check_out_date b)
                 (mark_cancelled booking_reference db))
        end
    end.
Proof.
  unfold cancel_booking, transaction, cancel_booking_body. run_cursor.
  destruct (find_user_by_email guest_email db) as [u|];
    run_cursor; [| reflexivity].
  destruct (find_booking booking_reference db) as [b|];
    run_cursor; [| reflexivity].
  destruct (negb (Booking.user_id b =? User.user_id u));
    run_cursor; [reflexivity |].
  destruct (Booking.status b =? "cancelled")%string; reflexivity.
Qed.

(** X9: A cancellation asked under an email no guest has fails with "Guest not
    found", whether or not the reference exists, and one under a reference
    no booking has fails with "Booking not found"; neither writes. *)
Theorem cancel_booking_not_found (booking_reference guest_email : string)
    (db : DB) :
  find_user_by_email guest_email db = None
  \/ find_booking booking_reference db = None ->
  exists e,
    cancel_booking booking_reference guest_email db = (inl e, db)
    /\ (find_user_by_email guest_email db = None -> e = GuestNotFound)
    /\ (find_user_by_email guest_email db <> None -> e = BookingNotFound).
Proof.
  intros H. rewrite cancel_booking_run.
  destruct (find_user_by_email guest_email db) as [u|].
  - destruct H as [H | H]; [discriminate |]. rewrite H.
    exists BookingNotFound. split; [reflexivity |].
    split; [discriminate | reflexivity].
  - exists GuestNotFound. split; [reflexivity |].
    split; [reflexivity | congruence].
Qed.

Lemma cancel_booking_not_found_witness :
  cancel_booking "HTL-20240601120000-4321" "nobody@nowhere.org"
    Sample.cancelled_db
  = (inl GuestNotFound, Sample.cancelled_db)
  /\ cancel_booking "HTL-19990101000000-1000" "mary.w@email.com"
       Sample.cancelled_db
     = (inl BookingNotFound, Sample.cancelled_db).
Proof.
  split.
  - destruct (cancel_booking_not_found "HTL-20240601120000-4321"
                "nobody@nowhere.org" Sample.cancelled_db)
      as (e & -> & He & _); [left; vm_compute; reflexivity |].
    rewrite He; [reflexivity | vm_compute; reflexivity].
  - vm_compute. reflexivity.
Defined.

(** X10: A guest cannot cancel the booking of another guest: whatever its
    status, the call fails with Unauthorized and writes nothing. *)
Theorem cancel_booking_unauthorized (booking_reference guest_email : string)
    (db : DB) (u : User.t) (b : Booking.t) :
  find_user_by_email guest_email db = Some u ->
  find_booking booking_reference db = Some b ->
  Booking.user_id b <> User.user_id u ->
  cancel_booking booking_reference guest_email db = (inl Unauthorized, db).
Proof.
  intros Hu Hb Hne. rewrite cancel_booking_run, Hu, Hb.
  destruct (Z.eqb_spec (Booking.user_id b) (User.user_id u));
    [contradiction | reflexivity].
Qed.

Lemma find_booking_mark_cancelled (booking_reference : string) (db : DB) :
  find_booking booking_reference (mark_cancelled booking_reference db)
  = option_map (with_status "cancelled")
               (find_booking booking_reference db).
Proof.
  unfold find_booking, mark_cancelled. simpl.
  induction (bookings db) as [|b l IH]; simpl; [reflexivity |].
  destruct (Booking.booking_reference b =? booking_reference)%string eqn:E;
    simpl; rewrite E; [reflexivity | exact IH].
Qed.

(** A cancellation that returned, unfolded. *)
Lemma cancel_booking_inr (booking_reference guest_email : string)
    (db db' : DB) (x : cancellation) :
  cancel_booking booking_reference guest_email db = (inr x, db') ->
  exists u b,
    find_user_by_email guest_email db = Some u
    /\ find_booking booking_reference db = Some b
    /\ Booking.user_id b = User.user_id u
    /\ Booking.status b <> "cancelled"
    /\ find_booking booking_reference db'
       = Some (with_status "cancelled" b)
    /\ bookings db'
       = map (fun b0 =>
                if (Booking.booking_reference b0 =? booking_reference)%string
                then with_status "cancelled" b0 else b0)
             (bookings db)
    /\ room_inventory db'
       = map (fun i =>
                if in_stay (Booking.room_id b) (Booking.check_in_date b)
                     (Booking.check_out_date b) i
                then add_available 1 i else i)
             (room_inventory db)
    /\ users db' = users db
    /\ hotels db' = hotels db
    /\ rooms db' = rooms db
    /\ pricing_rules db' = pricing_rules db.
Proof.
  rewrite cancel_booking_run.
  destruct (find_user_by_email guest_email db) as [u|]; [| discriminate].
  destruct (find_booking booking_reference db) as [b|] eqn:Hb;
    [| discriminate].
  destruct (Z.eqb_spec (Booking.user_id b) (User.user_id u)) as [Hown | ?];
    simpl; [| discriminate].
  destruct (String.eqb_spec (Booking.status b) "cancelled") as [? | Hst];
    [discriminate |].
  intros [= <- <-]. exists u, b.
  repeat (split; [reflexivity || assumption |]).
  split.
  { change (find_booking booking_reference
              (mark_cancelled booking_reference db)
            = Some (with_status "cancelled" b)).
    now rewrite find_booking_mark_cancelled, Hb. }
  repeat split.
Qed.

(** X11: What a cancellation has done: the booking found under the reference
    belonged to the guest and was not cancelled; every booking of that
    reference is now 'cancelled' and no other booking has changed; each
    stored night of its stay has one unit more; guests, hotels, rooms and
    rules are as before. *)
Theorem cancel_booking_effect (booking_reference guest_email : string)
    (db db' : DB) (x : cancellation) :
  cancel_booking booking_reference guest_email db = (inr x, db') ->
  exists u b,
    find_user_by_email guest_email db = Some u
    /\ find_booking booking_reference db = Some b
    /\ Booking.user_id b = User.user_id u
    /\ Booking.status b <> "cancelled"
    /\ find_booking booking_reference db'
       = Some (with_status "cancelled" b)
    /\ bookings db'
       = map (fun b0 =>
                if (Booking.booking_reference b0 =? booking_reference)%string
                then with_status "cancelled" b0 else b0)
             (bookings db)
    /\ room_inventory db'
       = map (fun i =>
                if in_stay (Booking.room_id b) (Booking.check_in_date b)
                     (Booking.check_out_date b) i
                then add_available 1 i else i)
             (room_inventory db)
    /\ users db' = users db
    /\ hotels db' = hotels db
    /\ rooms db' = rooms db
    /\ pricing_rules db' = pricing_rules db.
Proof.
  exact (cancel_booking_inr booking_reference guest_email db db' x).
Qed.

(** X12: A cancellation cannot be repeated: right after one that returned, the
    same call fails with AlreadyCancelled and gives no unit back a second
    time. *)
Theorem cancel_booking_twice (booking_reference guest_email : string)
    (db db' : DB) (x : cancellation) :
  cancel_booking booking_reference guest_email db = (inr x, db') ->
  cancel_booking booking_reference guest_email db'
  = (inl AlreadyCancelled, db').
Proof.
  intros H. apply cancel_booking_inr in H.
  destruct H as (u & b & Hu & _ & Hown & _ & Hb' & _ & _ & Husers & _).
  rewrite cancel_booking_run.
  unfold find_user_by_email in *. rewrite Husers, Hu, Hb'. simpl.
  rewrite Hown, Z.eqb_refl. reflexivity.
Qed.

Lemma cancel_booking_twice_witness :
  let booked :=
    snd (create_booking Sample.env 1 1 Sample.july_1 (Sample.july_1 + 3)
           "Mary Williams" "mary.w@email.com" false None 1 None
           (Sample.db 5 2 1)) in
  let once :=
    cancel_booking "HTL-20240601120000-4321" "mary.w@email.com" booked in
  fst once = inr (mkCancellation "HTL-20240601120000-4321" "cancelled")
  /\ cancel_booking "HTL-20240601120000-4321" "mary.w@email.com" (snd once)
     = (inl AlreadyCancelled, snd once)
  /\ map Inventory.available_count (room_inventory (snd once)) = [5; 2; 1].
Proof.
  intros booked once.
  split; [vm_compute; reflexivity |]. split.
  - apply (cancel_booking_twice "HTL-20240601120000-4321"
             "mary.w@email.com" booked (snd once)
             (mkCancellation "HTL-20240601120000-4321" "cancelled")).
    vm_compute. reflexivity.
  - vm_compute. reflexivity.
Defined.

Lemma cancel_booking_effect_witness :
  let booked :=
    snd (create_booking Sample.env 1 1 Sample.july_1 (Sample.july_1 + 2)
           "Mary Williams" "mary.w@email.com" false None 1 None
           (Sample.db 5 2 1)) in
  let once :=
    cancel_booking "HTL-20240601120000-4321" "MARY.W@email.com" booked in
  fst once = inr (mkCancellation "HTL-20240601120000-4321" "cancelled")
  /\ map Booking.status (bookings (snd once)) = ["cancelled"]
  /\ map Inventory.available_count (room_inventory booked) = [4; 1; 1]
  /\ map Inventory.available_count (room_inventory (snd once)) = [5; 2; 1].
Proof.
  intros booked once.
  assert (H : once
              = (inr (mkCancellation "HTL-20240601120000-4321" "cancelled"),
                 snd once)) by (vm_compute; reflexivity).
  destruct (cancel_booking_effect _ _ _ _ _ H)
    as (u & b & _ & _ & _ & _ & _ & Hb & Hinv & _).
  split; [vm_compute; reflexivity |].
  split; [rewrite Hb; vm_compute; reflexivity |].
  split; vm_compute; reflexivity.
Defined.

Lemma cancel_booking_unauthorized_witness :
  let db :=
    set_users
      [Sample.guest;
       User.mk 2 "INDV1002" "David" "Brown" "d.brown@webmail.com" false None]
      Sample.cancelled_db in
  cancel_booking "HTL-20240601120000-4321" "d.brown@webmail.com" db
  = (inl Unauthorized, db).
Proof.
  cbv zeta.
  eapply cancel_booking_unauthorized.
  - vm_compute. reflexivity.
  - vm_compute. reflexivity.
  - vm_compute. discriminate.
Defined.

(** ** What every operation keeps *)

(** One operation leaves the database as it was, confirms a booking or
    cancels one. *)
Lemma step_cases (db : DB) (op : operation) :
  step db op = db
  \/ (exists db1 b room_id check_in check_out,
         step db op
         = update_inventory (-1) room_id check_in check_out
             (set_bookings (bookings db1 ++ [b]) db1)
         /\ (db1 = db \/ exists row, db1 = set_users (users db ++ [row]) db)
         /\ find_booking (Booking.booking_reference b) db = None
         /\ Booking.status b = "confirmed"
         /\ Booking.room_id b = room_id
         /\ Booking.check_in_date b = check_in
         /\ Booking.check_out_date b = check_out)
  \/ (exists booking_reference b,
         step db op
         = update_inventory 1 (Booking.room_id b) (Booking.check_in_date b)
             (Booking.check_out_date b)
             (mark_cancelled booking_reference db)
         /\ find_booking booking_reference db = Some b
         /\ Booking.status b <> "cancelled").
Proof.
  destruct op as [env h r ci co name email corp company count purpose
                 | ref email]; simpl.
  - destruct (create_booking_cases env h r ci co name email corp company
                count purpose db)
      as [[e ->] | (c & uid & db1 & m & b & -> & Hguest & _ & _ & Hfresh
                    & _ & _ & Hr & Hci & Hco & Hst)];
      [now left |].
    right. left. exists db1, b, r, ci, co. simpl.
    split; [reflexivity |].
    pose proof (resolve_guest_frame _ _ _ _ _ _ _ _ Hguest)
      as (_ & _ & _ & _ & Hb).
    apply resolve_guest_inr in Hguest.
    split.
    { destruct Hguest as [(u & _ & _ & ->) | (_ & row & _ & _ & ->)];
        [now left | right; now exists row]. }
    split; [| tauto].
    unfold find_booking in *. now rewrite <- Hb.
  - destruct (cancel_booking_cases ref email db)
      as [[e ->] | (c & u & b & -> & _ & Hb & _ & Hst)]; [now left |].
    right. right. exists ref, b. simpl. tauto.
Qed.

Lemma find_app_Some {A} (f : A -> bool) (l l' : list A) (x : A) :
  find f l = Some x -> find f (l ++ l') = Some x.
Proof.
  induction l as [|y l IH]; simpl; [discriminate |].
  destruct (f y); [trivial | exact IH].
Qed.

(** X13: A guest keeps their record: the row an email resolves to is the same
    after every operation of any sequence, whatever names, flags or
    companies later bookings under that email carry. *)
Theorem guest_record_kept (db : DB) (ops : list operation)
    (guest_email : string) (u : User.t) :
  find_user_by_email guest_email db = Some u ->
  Forall (fun s => find_user_by_email guest_email s = Some u)
         (trace db ops).
Proof.
  revert db. induction ops as [|op ops IH]; intros db Hu; simpl;
    [constructor |].
  assert (Hstep : find_user_by_email guest_email (step db op) = Some u).
  { destruct (step_cases db op)
      as [-> | [(db1 & b & r & ci & co & -> & Hdb1 & _)
               | (ref & b & -> & _)]];
      [exact Hu | | exact Hu].
    unfold find_user_by_email in *. simpl.
    destruct Hdb1 as [-> | [row ->]]; [exact Hu |].
    simpl. now apply find_app_Some. }
  constructor; [exact Hstep | apply IH, Hstep].
Qed.

Lemma guest_record_kept_witness :
  let ops :=
    [CreateBooking Sample.env 1 1 Sample.july_1 (Sample.july_1 + 3)
       "M. W. Smith" "MARY.W@EMAIL.COM" true (Some "Analytical") 1 None;
     CancelBooking "HTL-20240601120000-4321" "mary.w@email.com"] in
  find_user_by_email "Mary.W@Email.com" (Sample.db 5 5 5) = Some Sample.guest
  /\ Forall (fun s => find_user_by_email "Mary.W@Email.com" s
                      = Some Sample.guest)
            (trace (Sample.db 5 5 5) ops)
  /\ map (fun s => map Booking.status (bookings s))
         (trace (Sample.db 5 5 5) ops)
     = [["confirmed"]; ["cancelled"]].
Proof.
  cbv zeta.
  assert (H : find_user_by_email "Mary.W@Email.com" (Sample.db 5 5 5)
              = Some Sample.guest) by (vm_compute; reflexivity).
  split; [exact H |].
  split; [exact (guest_record_kept _ _ _ _ H) |].
  vm_compute. reflexivity.
Defined.




(** ** References stay unique and units are conserved *)

Lemma mark_cancelled_references (booking_reference : string)
    (l : list Booking.t) :
  map Booking.booking_reference
      (map (fun b =>
              if (Booking.booking_reference b =? booking_reference)%string
              then with_status "cancelled" b else b) l)
  = map Booking.booking_reference l.
Proof.
  rewrite map_map. apply map_ext. intros b.
  now destruct (Booking.booking_reference b =? booking_reference)%string.
Qed.

Lemma step_unique_references (db : DB) (op : operation) :
  unique_references db -> unique_references (step db op).
Proof.
  unfold unique_references. intros Hu.
  destruct (step_cases db op)
    as [-> | [(db1 & b & r & ci & co & -> & Hdb1 & Hfresh & _)
             | (ref & b & -> & _)]]; [exact Hu | |].
  - simpl.
    assert (Hb : bookings db1 = bookings db)
      by (destruct Hdb1 as [-> | [row ->]]; reflexivity).
    rewrite Hb, map_app. simpl.
    apply NoDup_app; [exact Hu | repeat constructor; intros [] |].
    intros a Ha [<- | []].
    apply in_map_iff in Ha. destruct Ha as (b0 & Hb0 & Hin).
    rewrite find_booking_None in Hfresh. now apply (Hfresh b0 Hin).
  - simpl. now rewrite mark_cancelled_references.
Qed.

(** X15: No two bookings ever share a reference: the uniqueness of the
    references holds after every operation of any sequence that starts from
    a database where it holds. *)
Theorem references_stay_unique (db : DB) (ops : list operation) :
  unique_references db -> Forall unique_references (trace db ops).
Proof.
  revert db. induction ops as [|op ops IH]; intros db Hu; simpl;
    [constructor |].
  pose proof (step_unique_references db op Hu) as Hstep.
  constructor; [exact Hstep | apply IH, Hstep].
Qed.

Lemma mark_cancelled_others (booking_reference : string)
    (l : list Booking.t) :
  (forall b, In b l -> Booking.booking_reference b <> booking_reference) ->
  map (fun b => if (Booking.booking_reference b =? booking_reference)%string
                then with_status "cancelled" b else b) l
  = l.
Proof.
  intros H. rewrite <- (map_id l) at 2. apply map_ext_in. intros b Hb.
  destruct (String.eqb_spec (Booking.booking_reference b) booking_reference);
    [now apply H in Hb | reflexivity].
Qed.

(** Marking the one active booking of a reference cancelled releases the
    unit it held on an entry of its stay, and no other. *)
Lemma units_after_cancel (i : Inventory.t) (booking_reference : string)
    (l : list Booking.t) (b : Booking.t) :
  NoDup (map Booking.booking_reference l) ->
  find (fun b0 => (Booking.booking_reference b0 =? booking_reference)%string)
       l = Some b ->
  Booking.status b <> "cancelled" ->
  Z.of_nat
    (List.length
       (filter (holds_unit i)
          (map (fun b0 =>
                  if (Booking.booking_reference b0 =? booking_reference)%string
                  then with_status "cancelled" b0 else b0) l)))
  + (if in_stay (Booking.room_id b) (Booking.check_in_date b)
          (Booking.check_out_date b) i then 1 else 0)
  = Z.of_nat (List.length (filter (holds_unit i) l)).
Proof.
  intros Hnd Hfind Hst.
  induction l as [|x l IH]; [discriminate |].
  cbn [map] in Hnd. apply NoDup_cons_iff in Hnd. destruct Hnd as [Hx Hnd].
  cbn [find] in Hfind. cbn [map].
  destruct (String.eqb_spec (Booking.booking_reference x) booking_reference)
    as [E | E].
  - injection Hfind as ->.
    rewrite mark_cancelled_others.
    2:{ intros b0 Hb0 E0. apply Hx. rewrite E, <- E0.
        now apply in_map. }
    assert (H1 : holds_unit i (with_status "cancelled" b) = false)
      by reflexivity.
    assert (H2 : holds_unit i b
                 = in_stay (Booking.room_id b) (Booking.check_in_date b)
                     (Booking.check_out_date b) i).
    { unfold holds_unit, active.
      destruct (String.eqb_spec (Booking.status b) "cancelled");
        [contradiction | reflexivity]. }
    cbn [filter]. rewrite H1, H2.
    destruct (in_stay _ _ _ i); cbn [List.length]; lia.
  - specialize (IH Hnd Hfind). cbn [filter].
    destruct (holds_unit i x); cbn [List.length]; lia.
Qed.

Lemma step_capacity (db : DB) (op : operation) :
  unique_references db -> capacity (step db op) = capacity db.
Proof.
  intros Hu. unfold capacity.
  destruct (step_cases db op)
    as [-> | [(db1 & b & r & ci & co & -> & Hdb1 & _ & Hst & <- & <- & <-)
             | (ref & b & -> & Hfind & Hst)]]; [reflexivity | |].
  - assert (Hb : bookings db1 = bookings db)
      by (destruct Hdb1 as [-> | [row ->]]; reflexivity).
    assert (Hi : room_inventory db1 = room_inventory db)
      by (destruct Hdb1 as [-> | [row ->]]; reflexivity).
    simpl. rewrite Hb, Hi, map_map. apply map_ext. intros i.
    assert (Hhold : holds_unit i b
                    = in_stay (Booking.room_id b) (Booking.check_in_date b)
                        (Booking.check_out_date b) i).
    { unfold holds_unit, active. now rewrite Hst. }
    destruct (in_stay _ _ _ i) eqn:E.
    + change (filter (holds_unit (add_available (-1) i)))
        with (filter (holds_unit i)).
      rewrite filter_app, length_app. cbn [filter]. rewrite Hhold.
      simpl. lia.
    + rewrite filter_app, length_app. cbn [filter]. rewrite Hhold.
      simpl. lia.
  - simpl. rewrite map_map. apply map_ext. intros i.
    pose proof (units_after_cancel i ref (bookings db) b Hu Hfind Hst) as H.
    destruct (in_stay _ _ _ i) eqn:E.
    + change (filter (holds_unit (add_available 1 i)))
        with (filter (holds_unit i)).
      simpl. lia.
    + lia.
Qed.

(** X16: Units are conserved: for every inventory entry, the units left plus the
    units held by bookings that are not cancelled is the same number after
    every operation of any sequence (from a database whose references are
    unique).  A booking takes exactly the unit a cancellation gives back. *)
Theorem capacity_conserved (db : DB) (ops : list operation) :
  unique_references db ->
  Forall (fun s => capacity s = capacity db) (trace db ops).
Proof.
  intros Hu.
  assert (Hgen : forall s, unique_references s -> capacity s = capacity db ->
                           Forall (fun s' => capacity s' = capacity db)
                                  (trace s ops)).
  { induction ops as [|op ops IH]; intros s Hs Hc; simpl; [constructor |].
    assert (Hstep : capacity (step s op) = capacity db)
      by (now rewrite step_capacity).
    constructor; [exact Hstep |].
    apply IH; [now apply step_unique_references | exact Hstep]. }
  now apply Hgen.
Qed.

Lemma references_stay_unique_witness :
  let ops :=
    [CreateBooking Sample.env 1 1 Sample.july_1 (Sample.july_1 + 3)
       "Mary Williams" "mary.w@email.com" false None 1 None;
     CreateBooking Sample.env 1 1 Sample.july_1 (Sample.july_1 + 2)
       "David Brown" "d.brown@webmail.com" false None 1 None] in
  Forall unique_references (trace (Sample.db 5 5 5) ops)
  /\ map (fun s => map Booking.booking_reference (bookings s))
         (trace (Sample.db 5 5 5) ops)
     = [["HTL-20240601120000-4321"]; ["HTL-20240601120000-4321"]].
Proof.
  cbv zeta. split; [| vm_compute; reflexivity].
  apply references_stay_unique. constructor.
Defined.

Lemma capacity_conserved_witness :
  let ops :=
    [CreateBooking Sample.env 1 1 Sample.july_1 (Sample.july_1 + 2)
       "Mary Williams" "mary.w@email.com" false None 1 None;
     CreateBooking (mkEnv 1235 "20240601120001" 4322) 1 1
       (Sample.july_1 + 1) (Sample.july_1 + 3) "David Brown"
       "d.brown@webmail.com" false None 1 None;
     CancelBooking "HTL-20240601120000-4321" "mary.w@email.com"] in
  Forall (fun s => capacity s = [5; 2; 3]) (trace (Sample.db 5 2 3) ops)
  /\ map (fun s => map Inventory.available_count (room_inventory s))
         (trace (Sample.db 5 2 3) ops)
     = [[4; 1; 3]; [4; 0; 2]; [5; 1; 2]].
Proof.
  cbv zeta. split; [| vm_compute; reflexivity].
  change [5; 2; 3] with (capacity (Sample.db 5 2 3)).
  apply capacity_conserved. constructor.
Defined.

(** ** Reading a booking back *)

(** A confirmation, unfolded: the steps that led to it. *)
Lemma create_booking_inr (env : environment) (hotel_id room_id : Z)
    (check_in check_out : date) (guest_name guest_email : string)
    (is_corporate : bool) (company_name : option string) (guest_count : Z)
    (purpose : option string) (db db' : DB) (c : confirmation) :
  create_booking env hotel_id room_id check_in check_out guest_name
    guest_email is_corporate company_name guest_count purpose db
  = (inr c, db') ->
  exists user_id db1 h r p,
    resolve_guest guest_name guest_email is_corporate company_name
      (user_code_draw env) db = inr (user_id, db1)
    /\ find_hotel_room hotel_id room_id db1 = Some (h, r)
    /\ calculate_dynamic_price db (Room.base_price r) check_in check_out
         hotel_id is_corporate (Hotel.corporate_discount_percent h) = inr p
    /\ find_booking
         (generate_booking_reference (timestamp env) (random_suffix env))
         db1 = None
    /\ c = confirmation_of env check_in check_out guest_name guest_email
             is_corporate company_name purpose p
    /\ db' = update_inventory (-1) room_id check_in check_out
               (set_bookings
                  (bookings db1
                   ++ [booking_row env user_id hotel_id room_id check_in
                         check_out guest_name guest_count purpose p])
                  db1).
Proof.
  rewrite create_booking_run.
  destruct (resolve_guest _ _ _ _ _ db) as [e | [user_id db1]] eqn:Hguest;
    [discriminate |].
  destruct (find_hotel_room hotel_id room_id db1) as [[h r]|] eqn:Hroom;
    [| discriminate].
  destruct (min_avail room_id check_in check_out db1) as [m|];
    [| discriminate].
  destruct (m <? 1); [discriminate |].
  destruct (calculate_dynamic_price _ _ _ _ _ _ _) as [e | p] eqn:Hp;
    [discriminate |].
  cbv zeta. destruct (find_booking _ db1) eqn:Hfresh; [discriminate |].
  intros [= <- <-]. exists user_id, db1, h, r, p.
  split; [reflexivity |]. split; [exact Hroom |]. split; [exact Hp |].
  split; [exact Hfresh |]. split; reflexivity.
Qed.

(** The guest a call of the resolver returns is stored under the email. *)
Lemma resolve_guest_stored (guest_name guest_email : string)
    (is_corporate : bool) (company_name : option string) (draw : Z)
    (db db1 : DB) (user_id : Z) :
  resolve_guest guest_name guest_email is_corporate company_name draw db
  = inr (user_id, db1) ->
  exists u, find_user_by_email guest_email db1 = Some u
            /\ User.user_id u = user_id /\ In u (users db1).
Proof.
  intros H. apply resolve_guest_inr in H.
  destruct H as [(u & Hfind & -> & ->) | (Hnone & row & Hmail & <- & ->)].
  - exists u. repeat split; auto.
    unfold find_user_by_email in Hfind. now apply find_some in Hfind.
  - exists row. unfold find_user_by_email in *. simpl.
    split; [| split; [reflexivity | apply in_or_app; right; now left]].
    apply find_last; [exact Hnone |].
    rewrite Hmail. apply String.eqb_refl.
Qed.

Lemma find_hotel_room_Some (hotel_id room_id : Z) (db : DB)
    (h : Hotel.t) (r : Room.t) :
  find_hotel_room hotel_id room_id db = Some (h, r) ->
  In h (hotels db) /\ In r (rooms db)
  /\ Hotel.hotel_id h = hotel_id /\ Room.room_id r = room_id
  /\ Room.hotel_id r = hotel_id.
Proof.
  unfold find_hotel_room. intros H. apply find_some in H.
  destruct H as [Hin Hok]. simpl in Hok.
  apply andb_prop in Hok. destruct Hok as [H1 H2].
  apply Z.eqb_eq in H1. apply Z.eqb_eq in H2.
  unfold hotels_join_rooms in Hin. apply in_flat_map in Hin.
  destruct Hin as (h' & Hh & Hin). apply in_map_iff in Hin.
  destruct Hin as (r' & [= -> ->] & Hin). apply filter_In in Hin.
  destruct Hin as [Hr Hj]. apply Z.eqb_eq in Hj.
  repeat split; auto. congruence.
Qed.

(** X17: [get_booking_details] under a reference no booking carries fails with
    "Booking not found". *)
Theorem get_booking_details_unknown (booking_reference : string) (db : DB) :
  (forall b, In b (bookings db) ->
             Booking.booking_reference b <> booking_reference) ->
  get_booking_details booking_reference db = (inl BookingNotFound, db).
Proof.
  intros Hno.
  unfold get_booking_details, without_commit, get_booking_details_body.
  run_cursor. unfold fetch_booking_details.
  assert (E : filter
                (fun b => (Booking.booking_reference b
                           =? booking_reference)%string)
                (bookings db) = []).
  { induction (bookings db) as [|b l IH]; [reflexivity |]. simpl.
    destruct (String.eqb_spec (Booking.booking_reference b)
                booking_reference) as [E | E].
    - exfalso. apply (Hno b); [now left | exact E].
    - apply IH. intros b0 Hb0. apply Hno. now right. }
  rewrite E. reflexivity.
Qed.

Lemma get_booking_details_unknown_witness :
  get_booking_details "HTL-19990101000000-1000" Sample.cancelled_db
  = (inl BookingNotFound, Sample.cancelled_db).
Proof.
  apply get_booking_details_unknown.
  intros b [<- | []]. vm_compute. discriminate.
Defined.

Lemma filter_none {A} (f : A -> bool) (l : list A) :
  (forall x, In x l -> f x = false) -> filter f l = [].
Proof.
  induction l as [|y l IH]; simpl; intros H; [reflexivity |].
  rewrite (H y) by now left. apply IH. intros x Hx. apply H. now right.
Qed.

(** X18: A confirmed booking can be read back at once: [get_booking_details] of
    the confirmed reference returns the booking as confirmed, with the
    dates, nights and amount of the confirmation. *)
Theorem get_booking_details_after_create (env : environment)
    (hotel_id room_id : Z) (check_in check_out : date)
    (guest_name guest_email : string) (is_corporate : bool)
    (company_name : option string) (guest_count : Z)
    (purpose : option string) (db db' : DB) (c : confirmation) :
  create_booking env hotel_id room_id check_in check_out guest_name
    guest_email is_corporate company_name guest_count purpose db
  = (inr c, db') ->
  exists d,
    get_booking_details (conf_booking_reference c) db' = (inr d, db')
    /\ Booking.booking_reference (Detail.booking d)
       = conf_booking_reference c
    /\ Booking.status (Detail.booking d) = "confirmed"
    /\ Booking.check_in_date (Detail.booking d) = check_in
    /\ Booking.check_out_date (Detail.booking d) = check_out
    /\ Booking.nights (Detail.booking d) = conf_nights c
    /\ Booking.total_amount (Detail.booking d) = conf_total_amount c.
Proof.
  intros H. apply create_booking_inr in H.
  destruct H as (uid & db1 & h & r & p & Hguest & Hroom & _ & Hfresh & ->
                 & ->).
  apply resolve_guest_stored in Hguest.
  destruct Hguest as (u & _ & Hid & Hu).
  apply find_hotel_room_Some in Hroom.
  destruct Hroom as (Hh & Hr & Hhid & Hrid & _).
  set (b := booking_row env uid hotel_id room_id check_in check_out
              guest_name guest_count purpose p).
  set (ref := generate_booking_reference (timestamp env) (random_suffix env)).
  unfold get_booking_details, without_commit, get_booking_details_body.
  run_cursor. unfold fetch_booking_details.
  cbn [bookings users hotels rooms update_inventory set_room_inventory
         set_bookings conf_booking_reference confirmation_of].
  fold ref. rewrite filter_app.
  rewrite (filter_none _ (bookings db1)).
  2:{ intros b0 Hb0. apply String.eqb_neq.
      rewrite find_booking_None in Hfresh. now apply Hfresh. }
  cbn [filter app Booking.booking_reference b booking_row].
  fold ref. rewrite String.eqb_refl.
  cbn [flat_map]. rewrite app_nil_r.
  match goal with
  | |- context [match ?rows with [] => _ | _ => _ end] =>
      assert (Hrows : (exists d, In d rows)
                      /\ forall d, In d rows -> Detail.booking d = b)
  end.
  { split.
    - eexists. apply in_flat_map. exists u. split.
      + apply filter_In. split; [exact Hu |].
        simpl. rewrite Hid. apply Z.eqb_refl.
      + apply in_flat_map. exists h. split.
        * apply filter_In. split; [exact Hh |].
          simpl. rewrite Hhid. apply Z.eqb_refl.
        * apply in_map_iff. exists r. split; [reflexivity |].
          apply filter_In. split; [exact Hr |].
          simpl. rewrite Hrid. apply Z.eqb_refl.
    - intros d Hd. apply in_flat_map in Hd. destruct Hd as (u0 & _ & Hd).
      apply in_flat_map in Hd. destruct Hd as (h0 & _ & Hd).
      apply in_map_iff in Hd. destruct Hd as (r0 & <- & _). reflexivity. }
  destruct Hrows as [[d0 Hd0] Hall].
  match goal with
  | |- context [match ?rows with [] => _ | _ => _ end] =>
      destruct rows as [|d rest]
  end; [destruct Hd0 |].
  exists d. split; [reflexivity |].
  rewrite (Hall d (or_introl eq_refl)). repeat split.
Qed.

Lemma get_booking_details_after_create_witness :
  let booked :=
    create_booking Sample.env 1 1 Sample.july_1 (Sample.july_1 + 2)
      "Mary Williams" "mary.w@email.com" false None 1 None
      (Sample.db 5 2 1) in
  exists d,
    fst (get_booking_details "HTL-20240601120000-4321" (snd booked)) = inr d
    /\ Booking.status (Detail.booking d) = "confirmed"
    /\ Booking.nights (Detail.booking d) = 2.
Proof.
  intros booked.
  assert (H : booked
              = (inr (confirmation_of Sample.env Sample.july_1
                        (Sample.july_1 + 2) "Mary Williams"
                        "mary.w@email.com" false None None
                        (mkPricing 300 150 2
                           (mkBreakdown 200 300 0 0 300) 0)),
                 snd booked))
    by (vm_compute; reflexivity).
  destruct (get_booking_details_after_create _ _ _ _ _ _ _ _ _ _ _ _ _ _ H)
    as (d & Hd & _ & Hst & _ & _ & Hn & _).
  exists d. split; [| split; [exact Hst | exact Hn]].
  change (conf_booking_reference _) with "HTL-20240601120000-4321" in Hd.
  now rewrite Hd.
Defined.

(** ** Listing bookings *)

(** X19: What [list_bookings_by_email] returns for a known guest: the count is
    the length of the list, the list is in descending order of check-in,
    every listed booking has the asked status when a status is asked, and,
    unless past bookings are asked for, none has checked out before the
    current date. *)
Theorem list_bookings_filters (guest_email : string)
    (status : option string) (include_past : bool) (current_date : date)
    (db : DB) (guest_name email : string) (is_corporate : bool)
    (company : option string) (count : Z) (listed : list Summary.t) :
  fst (list_bookings_by_email guest_email status include_past current_date
         db)
  = inr (GuestBookings guest_name email is_corporate company count listed) ->
  count = Z.of_nat (List.length listed)
  /\ descending Summary.check_in_date listed
  /\ (forall s, In s listed ->
        (Text.truthy status = true ->
         Some (Summary.status s) = status)
        /\ (include_past = false ->
            current_date <= Summary.check_out_date s)).
Proof.
  unfold list_bookings_by_email, without_commit,
    list_bookings_by_email_body.
  run_cursor.
  destruct (find_user_by_email guest_email db) as [u|]; run_cursor;
    simpl; [| discriminate].
  intros [= _ _ _ _ <- <-].
  split; [reflexivity |].
  split; [apply order_by_desc_sorted |].
  intros s Hs. unfold fetch_bookings in Hs.
  apply order_by_desc_In in Hs. apply in_flat_map in Hs.
  destruct Hs as (b & Hb & Hs). apply filter_In in Hb.
  destruct Hb as [_ Hsel].
  apply in_flat_map in Hs. destruct Hs as (h & _ & Hs).
  apply in_map_iff in Hs. destruct Hs as (r & <- & _). simpl.
  apply andb_prop in Hsel. destruct Hsel as [Hsel Hpast].
  apply andb_prop in Hsel. destruct Hsel as [_ Hstatus].
  split.
  - intros Ht. rewrite Ht in Hstatus.
    destruct status as [st|]; [| discriminate]. simpl in Hstatus.
    apply String.eqb_eq in Hstatus. now rewrite Hstatus.
  - intros ->. simpl in Hpast. now apply Z.leb_le.
Qed.

Lemma list_bookings_filters_witness :
  let db := Sample.cancelled_db in
  fst (list_bookings_by_email "mary.w@email.com" (Some "cancelled") false
         Sample.july_1 db)
  = inr (GuestBookings "Mary Williams" "mary.w@email.com" false None 1
           [summary_of Sample.cancelled_booking Sample.hotel Sample.room])
  /\ fst (list_bookings_by_email "mary.w@email.com" (Some "confirmed") false
            Sample.july_1 db)
     = inr (GuestBookings "Mary Williams" "mary.w@email.com" false None 0 [])
  /\ fst (list_bookings_by_email "mary.w@email.com" None false
            (Sample.july_1 + 4) db)
     = inr (GuestBookings "Mary Williams" "mary.w@email.com" false None 0 [])
  /\ descending Summary.check_in_date
       [summary_of Sample.cancelled_booking Sample.hotel Sample.room].
Proof.
  cbv zeta.
  assert (H : fst (list_bookings_by_email "mary.w@email.com"
                     (Some "cancelled") false Sample.july_1
                     Sample.cancelled_db)
              = inr (GuestBookings "Mary Williams" "mary.w@email.com" false
                       None 1
                       [summary_of Sample.cancelled_booking Sample.hotel
                          Sample.room]))
    by (vm_compute; reflexivity).
  destruct (list_bookings_filters _ _ _ _ _ _ _ _ _ _ _ H) as (_ & Hs & _).
  split; [exact H |].
  split; [vm_compute; reflexivity |].
  split; [vm_compute; reflexivity | exact Hs].
Defined.

(** X20: A confirmed booking shows in the guest's listing at once: listed under
    the guest's email (in any letter case), with no status filter or the
    filter 'confirmed', and with past bookings included or a current date
    not after its check-out, the listing carries the confirmed reference
    with the status 'confirmed'. *)
Theorem list_bookings_after_create (env : environment)
    (hotel_id room_id : Z) (check_in check_out : date)
    (guest_name guest_email : string) (is_corporate : bool)
    (company_name : option string) (guest_count : Z)
    (purpose : option string) (db db' : DB) (c : confirmation)
    (listing_email : string) (status : option string) (include_past : bool)
    (current_date : date) :
  create_booking env hotel_id room_id check_in check_out guest_name
    guest_email is_corporate company_name guest_count purpose db
  = (inr c, db') ->
  Text.LOWER listing_email = Text.LOWER guest_email ->
  Text.truthy status = false \/ status = Some "confirmed" ->
  include_past = true \/ current_date <= check_out ->
  exists name email corp company count listed s,
    list_bookings_by_email listing_email status include_past current_date
      db'
    = (inr (GuestBookings name email corp company count listed), db')
    /\ In s listed
    /\ Summary.booking_reference s = conf_booking_reference c
    /\ Summary.status s = "confirmed"
    /\ Summary.check_in_date s = check_in
    /\ Summary.check_out_date s = check_out
    /\ Summary.total_amount s = conf_total_amount c.
Proof.
  intros H Hlow Hstatus Hpast. apply create_booking_inr in H.
  destruct H as (uid & db1 & h & r & p & Hguest & Hroom & _ & _ & -> & ->).
  apply resolve_guest_stored in Hguest.
  destruct Hguest as (u & Hfind & Hid & _).
  apply find_hotel_room_Some in Hroom.
  destruct Hroom as (Hh & Hr & Hhid & Hrid & _).
  set (b := booking_row env uid hotel_id room_id check_in check_out
              guest_name guest_count purpose p).
  unfold list_bookings_by_email, without_commit,
    list_bookings_by_email_body.
  run_cursor.
  rewrite (find_user_by_email_lower guest_email listing_email _ Hlow).
  assert (Hfind' : find_user_by_email guest_email
                     (update_inventory (-1) room_id check_in check_out
                        (set_bookings (bookings db1 ++ [b]) db1))
                   = Some u) by exact Hfind.
  rewrite Hfind'. run_cursor.
  do 6 eexists. exists (summary_of b h r).
  split; [reflexivity |]. split; [| repeat split].
  unfold fetch_bookings. apply order_by_desc_In. apply in_flat_map.
  exists b. split.
  - apply filter_In. split; [simpl; apply in_or_app; right; now left |].
    simpl. rewrite Hid, Z.eqb_refl. simpl.
    apply andb_true_intro. split.
    + destruct Hstatus as [-> | ->]; reflexivity.
    + destruct Hpast as [-> | Hle]; [reflexivity |].
      destruct include_past; simpl; [reflexivity | now apply Z.leb_le].
  - apply in_flat_map. exists h. split.
    + apply filter_In. split; [exact Hh |].
      simpl. rewrite Hhid. apply Z.eqb_refl.
    + apply in_map. apply filter_In. split; [exact Hr |].
      simpl. rewrite Hrid. apply Z.eqb_refl.
Qed.

Lemma list_bookings_after_create_witness :
  let booked :=
    create_booking Sample.env 1 1 Sample.july_1 (Sample.july_1 + 2)
      "Mary Williams" "mary.w@email.com" false None 1 None
      (Sample.db 5 2 1) in
  exists name email corp company count listed,
    fst (list_bookings_by_email "MARY.W@EMAIL.COM" (Some "confirmed") false
           (Sample.july_1 + 2) (snd booked))
    = inr (GuestBookings name email corp company count listed)
    /\ map Summary.booking_reference listed = ["HTL-20240601120000-4321"].
Proof.
  intros booked.
  assert (H : booked
              = (inr (confirmation_of Sample.env Sample.july_1
                        (Sample.july_1 + 2) "Mary Williams"
                        "mary.w@email.com" false None None
                        (mkPricing 300 150 2
                           (mkBreakdown 200 300 0 0 300) 0)),
                 snd booked))
    by (vm_compute; reflexivity).
  destruct (list_bookings_after_create _ _ _ _ _ _ _ _ _ _ _ _ _ _
              "MARY.W@EMAIL.COM" (Some "confirmed") false
              (Sample.july_1 + 2) H)
    as (name & email & corp & company & count & listed & s & Hl & _).
  - vm_compute. reflexivity.
  - now right.
  - right. lia.
  - exists name, email, corp, company, count, listed.
    rewrite Hl. split; [reflexivity |].
    revert Hl. vm_compute. intros [= _ _ _ _ _ <-]. reflexivity.
Defined.

(** ** Quotes *)

(** [calculate_trip_cost] as the chain of its tests. *)
Lemma calculate_trip_cost_run (hotel_id room_id : Z)
    (check_in check_out : date) (is_corporate : bool) (db : DB) :
  fst (calculate_trip_cost hotel_id room_id check_in check_out is_corporate
         db)
  = match find_hotel_room hotel_id room_id db with
    | None => inl HotelOrRoomNotFound
    | Some (h, r) =>
        match calculate_dynamic_price db (Room.base_price r) check_in
                check_out hotel_id is_corporate
                (Hotel.corporate_discount_percent h) with
        | inl e => inl e
        | inr p =>
            inr {| quote_hotel_name := Hotel.hotel_name h;
                   quote_city := Hotel.city h;
                   quote_room_type := Room.room_type r;
                   quote_check_in := check_in;
                   quote_check_out := check_out;
                   quote_nights := nights p;
                   base_price_per_night := Room.base_price r;
                   total_base_price :=
                     (Room.base_price r * PyFloat.of_int (nights p))%float;
                   quote_after_dynamic_pricing :=
                     after_dynamic_pricing (pricing_breakdown p);
                   quote_discount_percent :=
                     if is_corporate
                     then Hotel.corporate_discount_percent h else 0%float;
                   quote_discount_amount := corporate_discount_applied p;
                   quote_final_total := total_price p;
                   quote_average_per_night := average_per_night p;
                   is_corporate_booking := is_corporate |}
        end
    end.
Proof.
  unfold calculate_trip_cost, without_commit, calculate_trip_cost_body.
  run_cursor.
  destruct (find_hotel_room hotel_id room_id db) as [[h r]|];
    run_cursor; [| reflexivity].
  destruct (calculate_dynamic_price _ _ _ _ _ _ _); reflexivity.
Qed.

(** X21: The price charged is the price quoted: on the database a booking is
    confirmed from, [calculate_trip_cost] for the same hotel, room, dates
    and corporate flag returns the nights, final total, average per night
    and discount amount of the confirmation. *)
Theorem quote_matches_booking (env : environment) (hotel_id room_id : Z)
    (check_in check_out : date) (guest_name guest_email : string)
    (is_corporate : bool) (company_name : option string) (guest_count : Z)
    (purpose : option string) (db db' : DB) (c : confirmation) :
  create_booking env hotel_id room_id check_in check_out guest_name
    guest_email is_corporate company_name guest_count purpose db
  = (inr c, db') ->
  exists q,
    calculate_trip_cost hotel_id room_id check_in check_out is_corporate db
    = (inr q, db)
    /\ quote_nights q = conf_nights c
    /\ quote_final_total q = conf_total_amount c
    /\ quote_average_per_night q = conf_per_night_rate c
    /\ quote_discount_amount q = conf_corporate_discount c.
Proof.
  intros H. apply create_booking_inr in H.
  destruct H as (uid & db1 & h & r & p & Hguest & Hroom & Hp & _ & -> & _).
  apply resolve_guest_frame in Hguest.
  destruct Hguest as (Hh & Hr & _).
  rewrite (find_hotel_room_frame _ _ _ _ Hh Hr) in Hroom.
  pose proof (calculate_trip_cost_run hotel_id room_id check_in check_out
                is_corporate db) as Hq.
  rewrite Hroom, Hp in Hq.
  eexists. split.
  - rewrite (surjective_pairing (calculate_trip_cost _ _ _ _ _ _)).
    rewrite Hq. f_equal.
    unfold calculate_trip_cost, without_commit.
    destruct (calculate_trip_cost_body _ _ _ _ _ _ _) as [e | [a s]];
      reflexivity.
  - repeat split.
Qed.

Lemma quote_matches_booking_witness :
  let db := Sample.db 5 2 1 in
  exists c q,
    fst (create_booking Sample.env 1 1 Sample.july_1 (Sample.july_1 + 2)
           "Mary Williams" "mary.w@email.com" false None 1 None db)
    = inr c
    /\ calculate_trip_cost 1 1 Sample.july_1 (Sample.july_1 + 2) false db
       = (inr q, db)
    /\ quote_final_total q = 300%float
    /\ conf_total_amount c = 300%float.
Proof.
  intros db.
  pose (booked := create_booking Sample.env 1 1 Sample.july_1
                    (Sample.july_1 + 2) "Mary Williams" "mary.w@email.com"
                    false None 1 None db).
  assert (H : booked
              = (inr (confirmation_of Sample.env Sample.july_1
                        (Sample.july_1 + 2) "Mary Williams"
                        "mary.w@email.com" false None None
                        (mkPricing 300 150 2
                           (mkBreakdown 200 300 0 0 300) 0)),
                 snd booked))
    by (vm_compute; reflexivity).
  destruct (quote_matches_booking _ _ _ _ _ _ _ _ _ _ _ _ _ _ H)
    as (q & Hq & _ & Htotal & _).
  eexists. exists q. split; [exact (f_equal fst H) |].
  split; [exact Hq |]. split; [exact Htotal | reflexivity].
Defined.

(** X22: [calculate_trip_cost] for a room that does not belong to the hotel (or
    does not exist) fails with "Hotel or room not found". *)
Theorem calculate_trip_cost_unknown_room (hotel_id room_id : Z)
    (check_in check_out : date) (is_corporate : bool) (db : DB) :
  (forall r, In r (rooms db) ->
             ~ (Room.room_id r = room_id /\ Room.hotel_id r = hotel_id)) ->
  calculate_trip_cost hotel_id room_id check_in check_out is_corporate db
  = (inl HotelOrRoomNotFound, db).
Proof.
  intros Hno.
  unfold calculate_trip_cost, without_commit, calculate_trip_cost_body.
  run_cursor. now rewrite (find_hotel_room_None _ _ _ Hno).
Qed.

Lemma calculate_trip_cost_unknown_room_witness :
  calculate_trip_cost 1 7 Sample.july_1 (Sample.july_1 + 2) false
    (Sample.db 5 5 5)
  = (inl HotelOrRoomNotFound, Sample.db 5 5 5).
Proof.
  apply calculate_trip_cost_unknown_room.
  intros r [<- | []] [H _]. vm_compute in H. discriminate.
Defined.

(** One operation writes to guests, bookings and inventory only. *)
Lemma step_static (db : DB) (op : operation) :
  hotels (step db op) = hotels db
  /\ rooms (step db op) = rooms db
  /\ pricing_rules (step db op) = pricing_rules db.
Proof.
  destruct (step_cases db op)
    as [-> | [(db1 & b & r & ci & co & -> & Hdb1 & _)
             | (ref & b & -> & _)]]; [repeat split | | repeat split].
  destruct Hdb1 as [-> | [row ->]]; repeat split.
Qed.

(** X23: A quote depends on the hotels, rooms and pricing rules only: whatever
    bookings and cancellations are made, [calculate_trip_cost] returns what
    it returned before them. *)
Theorem quote_unchanged_by_operations (hotel_id room_id : Z)
    (check_in check_out : date) (is_corporate : bool) (db : DB)
    (ops : list operation) :
  Forall
    (fun s =>
       fst (calculate_trip_cost hotel_id room_id check_in check_out
              is_corporate s)
       = fst (calculate_trip_cost hotel_id room_id check_in check_out
                is_corporate db))
    (trace db ops).
Proof.
  assert (Hgen : forall s,
             hotels s = hotels db -> rooms s = rooms db ->
             pricing_rules s = pricing_rules db ->
             Forall
               (fun s' =>
                  fst (calculate_trip_cost hotel_id room_id check_in
                         check_out is_corporate s')
                  = fst (calculate_trip_cost hotel_id room_id check_in
                           check_out is_corporate db))
               (trace s ops)).
  { induction ops as [|op ops IH]; intros s Hh Hr Hp; simpl;
      [constructor |].
    destruct (step_static s op) as (Hh' & Hr' & Hp').
    rewrite Hh in Hh'. rewrite Hr in Hr'. rewrite Hp in Hp'.
    constructor; [| now apply IH].
    rewrite !calculate_trip_cost_run.
    rewrite (find_hotel_room_frame _ _ _ _ Hh' Hr').
    destruct (find_hotel_room hotel_id room_id db) as [[h r]|];
      [| reflexivity].
    unfold calculate_dynamic_price, fetch_pricing_rules.
    now rewrite Hp'. }
  now apply Hgen.
Qed.

(** ** Availability and booking agree *)


(** X24: [check_room_availability] of a room id no room has (or whose hotel is
    missing) fails with "Room not found". *)
Theorem check_room_availability_unknown_room (room_id : Z)
    (check_in check_out : date) (db : DB) :
  (forall r, In r (rooms db) -> Room.room_id r <> room_id) ->
  check_room_availability room_id check_in check_out db
  = (inl RoomNotFound, db).
Proof.
  intros Hno.
  unfold check_room_availability, without_commit,
    check_room_availability_body.
  run_cursor. unfold find_room. rewrite find_none; [reflexivity |].
  intros [r h] Hin. simpl. apply in_flat_map in Hin.
  destruct Hin as (r' & Hr & Hin). apply in_map_iff in Hin.
  destruct Hin as (h' & [= -> ->] & _).
  apply Z.eqb_neq, Hno, Hr.
Qed.

Lemma check_room_availability_unknown_room_witness :
  check_room_availability 7 Sample.july_1 (Sample.july_1 + 2)
    (Sample.db 5 5 5)
  = (inl RoomNotFound, Sample.db 5 5 5).
Proof.
  apply check_room_availability_unknown_room.
  intros r [<- | []]. vm_compute. discriminate.
Defined.



(** ** Company reports *)

(** X26: For a company name no guest carries, [get_corporate_bookings] returns a
    report with no booking and totals of zero; it does not fail. *)
Theorem get_corporate_bookings_unknown_company (company_name : string)
    (db : DB) :
  (forall u, In u (users db) -> User.company_name u <> Some company_name) ->
  get_corporate_bookings company_name db
  = (inr {| report_company_name := company_name;
            report_bookings_count := 0;
            total_spent := 0%float;
            total_saved := 0%float;
            report_bookings := [] |}, db).
Proof.
  intros Hno.
  unfold get_corporate_bookings, without_commit,
    get_corporate_bookings_body.
  run_cursor.
  assert (E : fetch_corporate_bookings company_name db = []).
  { unfold fetch_corporate_bookings.
    assert (Hf : forall b,
               filter
                 (fun u =>
                    (Booking.user_id b =? User.user_id u)
                    && match User.company_name u with
                       | Some c => (c =? company_name)%string
                       | None => false
                       end)
                 (users db) = []).
    { intros b. apply filter_none. intros u Hu.
      specialize (Hno u Hu).
      destruct (User.company_name u) as [c|];
        [| apply andb_false_r].
      destruct (String.eqb_spec c company_name) as [-> | _];
        [contradiction | apply andb_false_r]. }
    induction (bookings db) as [|b l IH]; [reflexivity |].
    cbn [flat_map]. rewrite Hf. cbn [flat_map app].
    exact IH. }
  rewrite E. reflexivity.
Qed.

Lemma get_corporate_bookings_unknown_company_witness :
  get_corporate_bookings "TechCorp Inc." Sample.cancelled_db
  = (inr (mkReport "TechCorp Inc." 0 0 0 []), Sample.cancelled_db).
Proof.
  apply get_corporate_bookings_unknown_company.
  intros u [<- | []]. discriminate.
Defined.

(** ** Booking references *)

Lemma decimal_injective (n n' : Z) :
  Text.decimal n = Text.decimal n' -> n = n'.
Proof.
  unfold Text.decimal. intros H.
  assert (Hnorm : forall z, Z.to_int z <> Decimal.Pos Decimal.Nil
                            /\ Z.to_int z <> Decimal.Neg Decimal.Nil).
  { intros z. pose proof (DecimalZ.to_of (Z.to_int z)) as E.
    rewrite DecimalZ.of_to in E.
    split; intros Hz; rewrite Hz in E; discriminate. }
  apply DecimalZ.to_int_inj.
  destruct (Hnorm n) as [H1 H2]. destruct (Hnorm n') as [H1' H2'].
  pose proof (NilZero.isi _ H1 H2) as E.
  pose proof (NilZero.isi _ H1' H2') as E'.
  rewrite H in E. congruence.
Qed.

Lemma append_injective (a a' b b' : string) :
  String.length a = String.length a' ->
  a ++ b = a' ++ b' -> a = a' /\ b = b'.
Proof.
  revert a'. induction a as [|c a IH]; intros [|c' a']; simpl;
    try discriminate.
  - auto.
  - intros [= Hlen] [= -> Happ]. destruct (IH a' Hlen Happ) as [-> ->].
    auto.
Qed.

(** X27: Two booking references are equal only if they were generated in the
    same second with the same random suffix (timestamps have one length,
    the 14 digits of [%Y%m%d%H%M%S]); a reference always starts with
    "HTL-". *)
Theorem generate_booking_reference_injective
    (timestamp timestamp' : string) (suffix suffix' : Z) :
  String.length timestamp = String.length timestamp' ->
  generate_booking_reference timestamp suffix
  = generate_booking_reference timestamp' suffix' ->
  timestamp = timestamp' /\ suffix = suffix'.
Proof.
  unfold generate_booking_reference. intros Hlen H.
  apply (append_injective "HTL-" "HTL-") in H; [| reflexivity].
  destruct H as [_ H].
  apply append_injective in H; [| exact Hlen].
  destruct H as [-> H]. split; [reflexivity |].
  apply (append_injective "-" "-") in H; [| reflexivity].
  apply decimal_injective. tauto.
Qed.

Lemma generate_booking_reference_injective_witness :
  generate_booking_reference "20240601120000" 4321
  = "HTL-20240601120000-4321"
  /\ generate_booking_reference "20240601120000" 4321
     <> generate_booking_reference "20240601120001" 4321
  /\ generate_booking_reference "20240601120000" 4321
     <> generate_booking_reference "20240601120000" 4322.
Proof.
  split; [vm_compute; reflexivity |].
  split; intros H;
    apply generate_booking_reference_injective in H;
    try reflexivity; destruct H as [H1 H2]; discriminate.
Defined.



(** ** Weekends *)

Lemma weekday_add (d k : Z) :
  Calendar.weekday (d + k) = (Calendar.weekday d + k) mod 7.
Proof.
  unfold Calendar.weekday.
  rewrite Zplus_mod_idemp_l. f_equal. lia.
Qed.

Lemma weekday_range (d : Z) : 0 <= Calendar.weekday d < 7.
Proof. unfold Calendar.weekday. apply Z.mod_pos_bound. lia. Qed.

(** X28: Any seven consecutive nights hold exactly two weekend nights, and the
    night a week later has the day type of the night itself. *)
Theorem two_weekend_nights_a_week (d : date) :
  List.length
    (filter is_weekend (map (fun k => d + Z.of_nat k) (seq 0 7)))
  = 2%nat
  /\ is_weekend (d + 7) = is_weekend d.
Proof.
  change (map (fun k => d + Z.of_nat k) (seq 0 7))
    with [d + 0; d + 1; d + 2; d + 3; d + 4; d + 5; d + 6].
  cbn [filter]. unfold is_weekend. rewrite !weekday_add.
  pose proof (weekday_range d) as Hw.
  assert (Hcase : Calendar.weekday d = 0 \/ Calendar.weekday d = 1
                  \/ Calendar.weekday d = 2 \/ Calendar.weekday d = 3
                  \/ Calendar.weekday d = 4 \/ Calendar.weekday d = 5
                  \/ Calendar.weekday d = 6) by lia.
  destruct Hcase as [E | [E | [E | [E | [E | [E | E]]]]]];
    rewrite E; split; reflexivity.
Qed.

(** ** Discounts *)

(** X29: Without the corporate flag, or with a hotel discount that is not above
    zero, the pricer applies no discount: the discount amount is 0 and the
    pre-discount total is the total. *)
Theorem no_discount_without_corporate_rate (db : DB) (base_price : float)
    (check_in check_out : date) (hotel_id : Z) (is_corporate : bool)
    (corporate_discount : float) (p : pricing) :
  is_corporate = false \/ (0 <? corporate_discount)%float = false ->
  calculate_dynamic_price db base_price check_in check_out hotel_id
    is_corporate corporate_discount = inr p ->
  corporate_discount_applied p = 0%float
  /\ corporate_discount_amount (pricing_breakdown p) = 0%float
  /\ final_total (pricing_breakdown p) = total_price p
  /\ (is_corporate = false ->
      corporate_discount_percent (pricing_breakdown p) = 0%float).
Proof.
  intros Hno. unfold calculate_dynamic_price.
  assert (E : is_corporate && (0 <? corporate_discount)%float = false).
  { destruct Hno as [-> | ->]; [reflexivity | apply andb_false_r]. }
  rewrite E.
  destruct (calculate_nights check_in check_out =? 0); [discriminate |].
  intros [= <-]. cbn [corporate_discount_applied pricing_breakdown
                        corporate_discount_amount final_total total_price
                        corporate_discount_percent].
  repeat split. intros ->. reflexivity.
Qed.

Lemma no_discount_without_corporate_rate_witness :
  exists p,
    calculate_dynamic_price (Sample.db 5 5 5) 100%float Sample.july_1
      (Sample.july_1 + 2) 1 false 20%float = inr p
    /\ corporate_discount_applied p = 0%float
    /\ total_price p = 300%float.
Proof.
  eexists.
  assert (H : calculate_dynamic_price (Sample.db 5 5 5) 100%float
                Sample.july_1 (Sample.july_1 + 2) 1 false 20%float
              = inr (mkPricing 300 150 2 (mkBreakdown 200 300 0 0 300) 0))
    by (vm_compute; reflexivity).
  split; [exact H |].
  split; [| reflexivity].
  destruct (no_discount_without_corporate_rate _ _ _ _ _ _ _ _
              (or_introl eq_refl) H) as [Hd _].
  exact Hd.
Defined.

(** ** The seeded inventory *)

Lemma seed_room_In (start_date : date) (room_id : Z) (base_price : float)
    (draw : nat -> Z) (i : Inventory.t) :
  In i (seed_room start_date room_id base_price draw) <->
  exists k, (k < 90)%nat
            /\ i = Inventory.mk room_id (start_date + Z.of_nat k) (draw k)
                                base_price.
Proof.
  unfold seed_room. rewrite in_map_iff. split.
  - intros (k & <- & Hk). apply in_seq in Hk. exists k. split; [lia | auto].
  - intros (k & Hk & ->). exists k. split; [reflexivity |].
    apply in_seq. lia.
Qed.

(** X30: The seeding script gives every room an entry for each of the 90 days
    from the start date, at the room's base price, and no entry for any
    other day; with draws between 2 and 20, as [randint(2, 20)] makes them,
    every seeded count is between 2 and 20. *)
Theorem seed_inventory_covers (start_date : date)
    (all_rooms : list (Z * float)) (draw : nat -> nat -> Z) :
  (forall room_id base_price d,
      In (room_id, base_price) all_rooms ->
      start_date <= d < start_date + 90 ->
      exists i, In i (seed_inventory start_date all_rooms draw)
                /\ Inventory.room_id i = room_id
                /\ Inventory.date i = d
                /\ Inventory.price i = base_price)
  /\ (forall i, In i (seed_inventory start_date all_rooms draw) ->
                start_date <= Inventory.date i < start_date + 90
                /\ In (Inventory.room_id i, Inventory.price i) all_rooms)
  /\ ((forall k j, 2 <= draw k j <= 20) ->
      forall i, In i (seed_inventory start_date all_rooms draw) ->
                2 <= Inventory.available_count i <= 20)
  /\ List.length (seed_inventory start_date all_rooms draw)
     = (90 * List.length all_rooms)%nat.
Proof.
  revert draw. induction all_rooms as [|[rid price] rest IH]; intros draw.
  - cbn [seed_inventory]. split; [| split; [| split]].
    + intros room_id base_price d [].
    + intros i [].
    + intros _ i [].
    + reflexivity.
  - destruct (IH (fun k => draw (S k))) as (IH1 & IH2 & IH3 & IH4).
    cbn [seed_inventory]. split; [| split; [| split]].
    + intros room_id base_price d [[= <- <-] | Hin] Hd.
      * exists (Inventory.mk rid d (draw 0%nat (Z.to_nat (d - start_date)))
                             price).
        split; [| repeat split].
        apply in_or_app. left. apply seed_room_In.
        exists (Z.to_nat (d - start_date)). split; [lia |].
        f_equal. lia.
      * destruct (IH1 room_id base_price d Hin Hd) as (i & Hi & Hrest).
        exists i. split; [apply in_or_app; now right | exact Hrest].
    + intros i Hi. apply in_app_or in Hi. destruct Hi as [Hi | Hi].
      * apply seed_room_In in Hi. destruct Hi as (k & Hk & ->). simpl.
        split; [lia | now left].
      * destruct (IH2 i Hi) as [Hd Hr]. split; [exact Hd | now right].
    + intros Hdraw i Hi. apply in_app_or in Hi. destruct Hi as [Hi | Hi].
      * apply seed_room_In in Hi. destruct Hi as (k & Hk & ->). simpl.
        apply Hdraw.
      * apply IH3; [intros k j; apply Hdraw | exact Hi].
    + rewrite length_app, IH4. unfold seed_room.
      rewrite length_map, length_seq. simpl. lia.
Qed.
